(** * mcomix native PDF backend: page listing and extraction

    A shallow embedding of [mcomix/archive/native_pdf/child.py] (the
    [FitzWorker] that classifies, names, extracts and renders pages),
    [manager.py] (the generator [WorkerProxy._extract_pages]) and
    [parent.py] ([FitzArchive.extract] and [iter_extract]), followed by
    the properties of the filename format, the classification and the
    extraction paths.

    PyMuPDF ([fitz]), Pillow and the operating system are collaborators of
    the code: their documents, codecs and file system appear here as plain
    data ([Document], [Codec], [World]). The document is one that
    [fitz.open] has opened. *)

From Stdlib Require Import ZArith Ascii String List Lia Floats Uint63.
From Stdlib Require Import DecimalString DecimalN.
From stdpp Require Import base option list strings gmap.

Open Scope Z_scope.

(** ** Python values and exceptions *)

Definition bytes := list Byte.byte.

Inductive Exn :=
| AttributeError | TypeError | ValueError | IndexError
| FileNotFoundError | UnidentifiedImageError | RuntimeError.

(** The outcome of a call that may raise. *)
Inductive PyResult (A : Type) :=
| Ok (a : A)
| Raise (e : Exn).
Arguments Ok {A} a.
Arguments Raise {A} e.

(** ** The string and integer builtins the worker uses *)

Module Py.

Definition ascii_in (c : ascii) (cs : list ascii) : bool :=
existsb (Ascii.eqb c) cs.

(** [len(s)] *)
Definition len (s : string) : nat := String.length s.

(** [s.startswith(p)] *)
Definition startswith (s p : string) : bool := String.prefix p s.

(** [sub in s] *)
Fixpoint contains (sub s : string) : bool :=
  String.prefix sub s ||
  match s with
  | EmptyString => false
  | String _ s' => contains sub s'
  end.

(** [s[:n]] *)
Fixpoint take (n : nat) (s : string) : string :=
  match n, s with
  | S k, String c s' => String c (take k s')
  | _, _ => EmptyString
  end.

(** [s[n:]] *)
Fixpoint drop (n : nat) (s : string) : string :=
  match n, s with
  | S k, String _ s' => drop k s'
  | _, _ => s
  end.

(** [s[-n:]] for [n > 0]: the last [n] characters, all of [s] when it is
    shorter. *)
Definition take_last (n : nat) (s : string) : string :=
  drop (len s - n) s.

(** [s[i:j]] for [0 <= i <= j]. *)
Definition slice (i j : nat) (s : string) : string :=
  take (j - i) (drop i s).

(** [s.split(sep)] for a non-empty [sep]: [skip] counts the characters of
    a separator still to be passed over, [cur] is the piece being read. *)
Fixpoint split_go (sep : string) (skip : nat) (cur : string) (s : string)
  : list string :=
  match skip with
  | S k =>
      match s with
      | EmptyString => [cur]
      | String _ s' => split_go sep k cur s'
      end
  | O =>
      match s with
      | EmptyString => [cur]
      | String c s' =>
          if String.prefix sep s
          then cur :: split_go sep (len sep - 1) EmptyString s'
          else split_go sep O (cur +:+ String c EmptyString) s'
      end
  end.

Definition split (sep s : string) : list string :=
  split_go sep O EmptyString s.

(** *** [int(s)]

    Surrounding white space is stripped, one sign is allowed, and the
    digits may be grouped by single underscores.  The strings read here
    are ASCII: their white space is tab, newline, vertical tab, form
    feed, carriage return and the space. *)

Definition is_space (c : ascii) : bool :=
  ascii_in c ["009"; "010"; "011"; "012"; "013"; " "]%char.

Definition digit_val (c : ascii) : option Z :=
  let n := Z.of_N (N_of_ascii c) in
  if (48 <=? n) && (n <=? 57) then Some (n - 48) else None.

Fixpoint lstrip (s : string) : string :=
  match s with
  | String c s' => if is_space c then lstrip s' else s
  | EmptyString => EmptyString
  end.

(** White space at the end: [None] when [s] is white space only. *)
Fixpoint rstrip_opt (s : string) : option string :=
  match s with
  | EmptyString => None
  | String c s' =>
      match rstrip_opt s' with
      | Some r => Some (String c r)
      | None => if is_space c then None else Some (String c EmptyString)
      end
  end.

Definition strip (s : string) : string :=
  match rstrip_opt (lstrip s) with
  | Some r => r
  | None => EmptyString
  end.

Fixpoint parse_digits (after_digit : bool) (acc : Z) (s : string)
  : option Z :=
  match s with
  | EmptyString => if after_digit then Some acc else None
  | String c s' =>
      match digit_val c with
      | Some d => parse_digits true (10 * acc + d) s'
      | None =>
          if Ascii.eqb c "_" && after_digit
          then parse_digits false acc s'
          else None
      end
  end.

Definition int (s : string) : PyResult Z :=
  let body := strip s in
  let '(neg, ds) :=
    match body with
    | String "-" r => (true, r)
    | String "+" r => (false, r)
    | _ => (false, body)
    end in
  match parse_digits false 0 ds with
  | Some n => Ok (if neg then - n else n)
  | None => Raise ValueError
  end.

(** *** [f"{n:04}"]

    Decimal digits, zero-filled after the sign to four characters at
    least. *)

Definition decimal (n : N) : string :=
  NilZero.string_of_uint (N.to_uint n).

Fixpoint zeros (k : nat) : string :=
  match k with
  | O => EmptyString
  | S k' => String "0" (zeros k')
  end.

Definition format_04 (n : Z) : string :=
  let d := decimal (Z.abs_N n) in
  if n <? 0
  then String "-" (zeros (3 - len d) +:+ d)
  else zeros (4 - len d) +:+ d.

End Py.

(** ** [os.path] (posixpath) *)

Module OsPath.

Definition endswith_slash (s : string) : bool :=
  match Py.take_last 1 s with
  | String "/" EmptyString => true
  | _ => false
  end.

(** [os.path.join(a, b)] *)
Definition join (a b : string) : string :=
  if Py.startswith b "/" then b
  else if (Py.len a =? 0)%nat || endswith_slash a then a +:+ b
  else a +:+ "/" +:+ b.

(** The part of [p] up to and including its last slash: [p[:p.rfind('/')+1]]. *)
Fixpoint head_through_slash (p : string) : string :=
  match p with
  | EmptyString => EmptyString
  | String c p' =>
      if Py.contains "/" p then String c (head_through_slash p')
      else EmptyString
  end.

Fixpoint all_slashes (s : string) : bool :=
  match s with
  | EmptyString => true
  | String c s' => Ascii.eqb c "/" && all_slashes s'
  end.

(** [s.rstrip('/')] *)
Fixpoint rstrip_slash (s : string) : string :=
  match s with
  | EmptyString => EmptyString
  | String c s' =>
      if all_slashes s then EmptyString else String c (rstrip_slash s')
  end.

(** [os.path.dirname(p)] *)
Definition dirname (p : string) : string :=
  let head := head_through_slash p in
  if negb (Py.len head =? 0)%nat && negb (all_slashes head)
  then rstrip_slash head
  else head.

(** The directories above [d], nearest first: [dirname d], its
    [dirname], and so on up to the root or to a name without directory
    part.  Each step is shorter than the one before, so [fuel] as long
    as [d] reaches the end. *)
Fixpoint ancestors (fuel : nat) (d : string) : list string :=
  match fuel with
  | O => []
  | S k =>
      let head := dirname d in
      if (Py.len head =? 0)%nat || String.eqb head d then []
      else head :: ancestors k head
  end.

End OsPath.

(** ** A state-and-exception monad

    Python methods read and update [self] (or the file system) and may
    raise; the state reached when an exception is raised is kept, since
    the caller can observe it. *)

Definition M (St A : Type) : Type := St -> PyResult A * St.

Definition ret {St A} (a : A) : M St A := fun s => (Ok a, s).

Definition raise {St A} (e : Exn) : M St A := fun s => (Raise e, s).

Definition bind {St A B} (m : M St A) (k : A -> M St B) : M St B :=
  fun s =>
    match m s with
    | (Ok a, s') => k a s'
    | (Raise e, s') => (Raise e, s')
    end.

Definition lift {St A} (r : PyResult A) : M St A := fun s => (r, s).

Definition get {St} : M St St := fun s => (Ok s, s).

Definition modify {St} (f : St -> St) : M St unit := fun s => (Ok tt, f s).

Declare Scope py_scope.
Delimit Scope py_scope with py.
Notation "'let*' x ':=' m 'in' k" := (bind m (fun x => k))
  (at level 10, x name, m at level 100, k at level 200) : py_scope.
Notation "m ';;' k" := (bind m (fun _ => k))
  (at level 100, k at level 200, right associativity) : py_scope.
Open Scope py_scope.

(** ** PyMuPDF documents, as the worker reads them *)

(** [fitz.IRect]: integer corners; [get_area()] is the float
    [1.0 * width * height], with empty rectangles of width and height 0. *)
Record IRect := { x0 : Z; y0 : Z; x1 : Z; y1 : Z }.

Definition float_of_Z (z : Z) : float :=
  if z <? 0 then PrimFloat.opp (PrimFloat.of_uint63 (Uint63.of_Z (- z)))
  else PrimFloat.of_uint63 (Uint63.of_Z z).

Definition irect_width (r : IRect) : Z := Z.max 0 (x1 r - x0 r).
Definition irect_height (r : IRect) : Z := Z.max 0 (y1 r - y0 r).
Definition get_area (r : IRect) : float :=
  float_of_Z (irect_width r * irect_height r).

(** One entry of [Page.get_image_info()]: its ['bbox'], when present, as
    [fitz.Rect(bbox).irect]. *)
Record ImageInfo := { bbox : option IRect }.

Record Page := {
  (** [Page.get_images()] and [Document.get_page_images(pno)]: one item
      per embedded image, of which the code reads item[0], the xref *)
  get_images : list Z;
  (** [Page.get_text()] *)
  get_text : string;
  (** [Page.get_image_info()] *)
  get_image_info : list ImageInfo;
  (** [fitz.Rect(page.mediabox).irect] *)
  mediabox : IRect;
  (** [Page.rotation] *)
  rotation : Z
}.

(** The dict of [Document.extract_image(xref)]; the empty dict is [None]
    below, and a dict may lack its ["image"] entry. *)
Record ImageDict := { img_image : option bytes }.

(** The dict of [fitz.image_profile(stream)], of which the code reads
    ['ext']. *)
Record ImageProfile := { prof_ext : option string }.

Record Document := {
  pages : list Page;
  (** [Document.extract_image(xref)] *)
  extract_image : Z -> PyResult (option ImageDict);
  (** [Document.xref_stream_raw(xref)] *)
  xref_stream_raw : Z -> PyResult bytes
}.

(** [PIL.Image.Transpose] *)
Inductive Transpose := ROTATE_90 | ROTATE_180 | ROTATE_270.

(** Pillow and PyMuPDF's codec functions. *)
Record Codec := {
  PilImage : Type;
  (** [Image.open(io.BytesIO(data))] *)
  Image_open : bytes -> PyResult PilImage;
  (** [img.transpose(method)] *)
  Image_transpose : PilImage -> Transpose -> PilImage;
  (** what [img.save(path)] writes at [path] *)
  Image_save : PilImage -> string -> PyResult bytes;
  (** [fitz.image_profile(stream)]; [None] is the empty profile *)
  image_profile : bytes -> PyResult (option ImageProfile);
  (** what [page.get_pixmap(dpi=dpi).save(path)] writes: a PNG *)
  pixmap_png : Page -> Z -> bytes
}.

(** [mcomix.constants.PDF_RENDER_DPI_DEF] *)
Definition PDF_RENDER_DPI_DEF : Z := 72 * 4.

(** Will delimit the page name from the xref part of a file name *)
Definition XREF_DELIMITER : string := "_mcmxref".

(** Calls into the collaborators that the properties below count. *)
Inductive Call :=
| CallCheckImageType (page_num : nat)
| CallExtractImage (xref : Z)
| CallGetPixmap (pg : Z).

(** ** The worker's own state: [FitzWorker.__init__] *)

Record FitzWorker := {
  _extension : option string;
  _complex_doc : bool;
  probes : list Call
}.

Definition FitzWorker_init : FitzWorker :=
  {| _extension := None; _complex_doc := false; probes := [] |}.

Definition set_extension (e : string) (w : FitzWorker) : FitzWorker :=
  {| _extension := Some e; _complex_doc := _complex_doc w; probes := probes w |}.

Definition set_complex_doc (w : FitzWorker) : FitzWorker :=
  {| _extension := _extension w; _complex_doc := true; probes := probes w |}.

Definition note_probe (c : Call) (w : FitzWorker) : FitzWorker :=
  {| _extension := _extension w; _complex_doc := _complex_doc w;
     probes := probes w ++ [c] |}.

(** ** The file system the worker writes to

    Paths are kept as they are spelled. [dirs] holds the paths known to be
    directories and [files] the regular files with what they hold; a path
    is taken to be one or the other. What the worker may run into besides
    a missing directory (a file standing where a directory is wanted, a
    directory standing where the file is to go, missing permissions, a
    full disk) is left out. *)

Record World := {
  dirs : gset string;
  files : gmap string bytes;
  calls : list Call
}.

Definition note_call (c : Call) : M World unit :=
  modify (fun w => {| dirs := dirs w; files := files w; calls := calls w ++ [c] |}).

(** [dirs] holds the paths known to be directories; the directory a
    relative name without directory part lies in is there in any case. *)
Definition dir_exists (w : World) (d : string) : bool :=
  (Py.len d =? 0)%nat || bool_decide (d ∈ dirs w).

(** What [os.makedirs(d)] leaves as directories: [d] and everything
    above it, the missing ones made on the way. *)
Definition made_by_makedirs (d : string) : list string :=
  d :: OsPath.ancestors (Py.len d) d.

(** [os.makedirs(d, exist_ok=True)]; the empty path is refused. *)
Definition makedirs (d : string) : M World unit :=
  if (Py.len d =? 0)%nat then raise FileNotFoundError
  else modify (fun w => {| dirs := list_to_set (made_by_makedirs d) ∪ dirs w;
                          files := files w; calls := calls w |}).

(** Writing [data] at [path]: [open(path, "wb").write(data)], or the
    file a codec saves.  The file is made or replaced when the directory
    it lies in is there; otherwise the writer raises [missing]. *)
Definition write_file (missing : Exn) (path : string) (data : bytes)
  : M World unit :=
  fun w =>
    if dir_exists w (OsPath.dirname path)
    then (Ok tt, {| dirs := dirs w; files := <[ path := data ]> (files w);
                    calls := calls w |})
    else (Raise missing, w).

(** ** [class FitzWorker] *)

Section Worker.

Context (codec : Codec).
(** [self.doc], opened by [fitz.open(filename)] *)
Context (doc : Document).
(** [prefs['auto rotate from exif']] *)
Context (auto_rotate_from_exif : bool).

Definition page_count : nat := length (pages doc).

(** [self.doc[page_num]] for the page numbers of [range(page_count)]. *)
Definition doc_page (page_num : nat) : PyResult Page :=
  match pages doc !! page_num with
  | Some page => Ok page
  | None => Raise IndexError
  end.

(** [self.doc[i]] for any integer: an index from [page_count] on is not
    in the document, a negative one counts from the end (PyMuPDF adds
    [page_count] until it is not negative, which never ends on a document
    without pages: that case is an error here). *)
Definition doc_getitem (i : Z) : PyResult Page :=
  if Z.of_nat page_count <=? i then Raise IndexError
  else if (page_count =? 0)%nat then Raise IndexError
  else doc_page (Z.to_nat (i mod Z.of_nat page_count)).

(** 0.05, as the binary64 value Python reads it to *)
Definition float_0_05 : float := 0x1.999999999999ap-5%float.

(** The test of [_can_extract_image] on the two rectangles:
    [abs(page_area - img_rect.get_area()) < 0.05 * page_area]. *)
Definition is_full_page (page_rect img_rect : IRect) : bool :=
  let page_area := get_area page_rect in
  let area_diff := PrimFloat.abs (PrimFloat.sub page_area (get_area img_rect)) in
  PrimFloat.ltb area_diff (PrimFloat.mul float_0_05 page_area).

Definition _must_render_page (page_num : nat) : M FitzWorker bool :=
  let* page := lift (doc_page page_num) in
  if negb (length (get_images page) =? 1)%nat || (0 <? Py.len (get_text page))%nat
  then modify set_complex_doc ;; ret true
  else ret false.

Definition _can_extract_image (page_num : nat) : M FitzWorker bool :=
  let* page := lift (doc_page page_num) in
  let image_info := get_image_info page in
  if negb (length image_info =? 1)%nat then ret false
  else
    match image_info with
    | info :: _ =>
        let img_rect := default {| x0 := 0; y0 := 0; x1 := 0; y1 := 0 |} (bbox info) in
        let page_rect := mediabox page in
        ret (is_full_page page_rect img_rect)
    | [] => raise IndexError
    end.

Definition _extract_as_image (page_num : nat) : M FitzWorker bool :=
  let* self := get in
  if _complex_doc self then ret false
  else
    let* must_render := _must_render_page page_num in
    if negb must_render
    then
      let* can_extract := _can_extract_image page_num in
      if can_extract then ret true else ret false
    else ret false.

(** [except (TypeError, IndexError): return -1] covers the page without
    images; a page number outside the document is refused by
    [get_page_images] itself. *)
Definition _get_image_xref (page_num : nat) : PyResult Z :=
  match pages doc !! page_num with
  | Some page =>
      match get_images page with
      | xref :: _ => Ok xref
      | [] => Ok (-1)
      end
  | None => Raise ValueError
  end.

(** The probe inside [try]: the xref, its raw stream, its profile. *)
Definition probe (page_num : nat) : PyResult (option ImageProfile) :=
  match _get_image_xref page_num with
  | Ok xref =>
      match xref_stream_raw doc xref with
      | Ok stream => image_profile codec stream
      | Raise e => Raise e
      end
  | Raise e => Raise e
  end.

(** [extension = 'png'], changed only by a non-empty profile;
    [finally: return extension] returns it whatever was raised. *)
Definition _check_image_type (page_num : nat) : M FitzWorker string :=
  modify (note_probe (CallCheckImageType page_num)) ;;
  match probe page_num with
  | Ok (Some img) => ret (default "png" (prof_ext img))
  | Ok None => ret "png"
  | Raise _ => ret "png"
  end.

Definition _image_extension (page_num : nat) : M FitzWorker string :=
  let* self := get in
  match _extension self with
  | None =>
      let* ext := _check_image_type page_num in
      modify (set_extension ext) ;; ret ext
  | Some ext => ret ext
  end.

(** The body of the loop of [iter_contents]: the filename it yields for
    page index [pg]. *)
Definition iter_contents_body (pg : nat) : M FitzWorker string :=
  let pagenum := "page" +:+ Py.format_04 (Z.of_nat pg + 1) in
  let* as_image := _extract_as_image pg in
  if as_image
  then
    let* xref := lift (_get_image_xref pg) in
    let* ext := _image_extension pg in
    ret (pagenum +:+ XREF_DELIMITER +:+ Py.format_04 xref +:+ "." +:+ ext)
  else ret (pagenum +:+ ".png").

(** The filenames yielded for the page indices [pgs], in order. *)
Fixpoint iter_contents_loop (pgs : list nat) : M FitzWorker (list string) :=
  match pgs with
  | [] => ret []
  | pg :: rest =>
      let* filename := iter_contents_body pg in
      let* others := iter_contents_loop rest in
      ret (filename :: others)
  end.

(** [iter_contents], consumed to its end:
    [for pg in range(self.doc.page_count)]. *)
Definition iter_contents : M FitzWorker (list string) :=
  iter_contents_loop (seq 0 page_count).

(** [extract_xref]: save the embedded image for a given xref. *)
Definition extract_xref (page : Z) (xref : Z) (path : string) : M World unit :=
  note_call (CallExtractImage xref) ;;
  let* img := lift (extract_image doc xref) in
  match img with
  | None => ret tt
  | Some img =>
      makedirs (OsPath.dirname path) ;;
      let img_bytes := default [] (img_image img) in
      let* pg := lift (doc_getitem page) in
      let rotation := rotation pg in
      if ((rotation =? 90) || (rotation =? 180) || (rotation =? 270))
         && auto_rotate_from_exif
      then
        let* pil_img := lift (Image_open codec img_bytes) in
        let transpose :=
          if rotation =? 180 then ROTATE_180
          else if rotation =? 270 then ROTATE_90
          else ROTATE_270 in
        let pil_img := Image_transpose codec pil_img transpose in
        let* saved := lift (Image_save codec pil_img path) in
        write_file FileNotFoundError path saved
      else write_file FileNotFoundError path img_bytes
  end.

(** [render_page]: render the page to an image file and save.
    [pixmap.save] makes no directory; [RuntimeError] stands for what the
    library raises when it cannot make the file. *)
Definition render_page (pg : Z) (path : string) : M World unit :=
  let* page := lift (doc_getitem pg) in
  note_call (CallGetPixmap pg) ;;
  write_file RuntimeError path (pixmap_png codec page PDF_RENDER_DPI_DEF).

Definition extract_file (filename dest : string) : M World unit :=
  let outpath := OsPath.join dest filename in
  if Py.contains XREF_DELIMITER filename
  then
    match Py.split XREF_DELIMITER filename with
    | [pginfo; ref] =>
        let* n := lift (Py.int (Py.take_last 4 pginfo)) in
        let page := n - 1 in
        let* xref := lift (Py.int (Py.take 4 ref)) in
        extract_xref page xref outpath
    | _ => raise ValueError
    end
  else if Py.startswith filename "page"
  then
    let* n := lift (Py.int (Py.slice 4 8 filename)) in
    let pg_num := n - 1 in
    render_page pg_num outpath
  else ret tt.

(** ** [WorkerProxy._extract_pages]: a generator

    The generator's state is what is left of [entries]; each [__next__]
    extracts one entry and yields it, [None] is StopIteration. *)

Record ExtractPages := {
  entries : list string;
  save_path : string
}.

Definition _extract_pages_next (g : ExtractPages)
  : M World (option (string * ExtractPages)) :=
  match entries g with
  | [] => ret None
  | e :: rest =>
      extract_file e (save_path g) ;;
      ret (Some (e, {| entries := rest; save_path := save_path g |}))
  end.

(** How a consumer of the generator stopped. *)
Inductive Ending :=
| Exhausted
| Raised (e : Exn)
| Suspended (g : ExtractPages).

(** A consumer that asks for at most [n] elements: those it received, in
    the order received, and how it stopped. *)
Fixpoint pull (n : nat) (g : ExtractPages) (w : World)
  : list string * Ending * World :=
  match n with
  | O => ([], Suspended g, w)
  | S k =>
      match _extract_pages_next g w with
      | (Ok (Some (e, g')), w') =>
          let '(received, ending, w'') := pull k g' w' in
          (e :: received, ending, w'')
      | (Ok None, w') => ([], Exhausted, w')
      | (Raise x, w') => ([], Raised x, w')
      end
  end.

(** [list(generator)]: every element, or the exception raised on the
    way. One more pull than there are entries reaches the end. *)
Definition py_list (g : ExtractPages) : M World (list string) :=
  fun w =>
    match pull (S (length (entries g))) g w with
    | (received, Exhausted, w') => (Ok received, w')
    | (_, Raised x, w') => (Raise x, w')
    | (_, Suspended _, w') => (Raise RuntimeError, w')
    end.

(** ** [class FitzArchive] *)

(** Modelled from the spec: [BaseArchive._create_directory] is defined in
    [mcomix/archive/archive_base.py]; it creates the destination
    directory. *)
Definition _create_directory (directory : string) : M World unit :=
  modify (fun w => {| dirs := {[ directory ]} ∪ dirs w; files := files w; calls := calls w |}).

(** [FitzArchive.extract]: extract the named page file to a directory. *)
Definition extract (filename destination_dir : string) : M World bool :=
  _create_directory destination_dir ;;
  let* output := py_list {| entries := [filename]; save_path := destination_dir |} in
  if (0 <? length output)%nat then ret true else ret false.

(** [FitzArchive.iter_extract]: the generator of extracted filepaths. *)
Definition iter_extract (entries : list string) (destination_dir : string)
  : M World ExtractPages :=
  _create_directory destination_dir ;;
  ret {| entries := entries; save_path := destination_dir |}.

End Worker.

(** * Properties *)

(** ** The filename wire format *)

(** [f"page{pg + 1:04}"] *)
Definition pagenum (pg : nat) : string :=
  "page" +:+ Py.format_04 (Z.of_nat pg + 1).

(** Rendered page: [page{N:04}.png] *)
Definition rendered_name (pg : nat) : string :=
  pagenum pg +:+ ".png".

(** Extracted page: [page{N:04}{DELIM}{XREF:04}.{ext}] *)
Definition extracted_name (pg : nat) (xref : Z) (ext : string) : string :=
  pagenum pg +:+ XREF_DELIMITER +:+ Py.format_04 xref +:+ "." +:+ ext.

(** What one page of a listing is: rendered, or extracted from an xref
    with an extension. *)
Inductive Entry :=
| Rendered (pg : nat)
| Extracted (pg : nat) (xref : Z) (ext : string).

Definition filename_of (e : Entry) : string :=
  match e with
  | Rendered pg => rendered_name pg
  | Extracted pg xref ext => extracted_name pg xref ext
  end.

Definition entry_page (e : Entry) : nat :=
  match e with
  | Rendered pg => pg
  | Extracted pg _ _ => pg
  end.

Definition is_extracted (e : Entry) : bool :=
  match e with
  | Rendered _ => false
  | Extracted _ _ _ => true
  end.

(** ** The listing, page by page *)

Definition zero_rect : IRect := {| x0 := 0; y0 := 0; x1 := 0; y1 := 0 |}.

(** The must-render test of [_must_render_page], on the page itself. *)
Definition forced_render (page : Page) : bool :=
  negb (length (get_images page) =? 1)%nat || (0 <? Py.len (get_text page))%nat.

(** The full-page-image test of [_can_extract_image], on the page itself. *)
Definition single_full_page_image (page : Page) : bool :=
  match get_image_info page with
  | [info] => is_full_page (mediabox page) (default zero_rect (bbox info))
  | _ => false
  end.

Definition first_xref (page : Page) : Z :=
  match get_images page with
  | xref :: _ => xref
  | [] => -1
  end.

Section Listing.

Context (codec : Codec) (doc : Document).

(** The extension [_check_image_type] returns for a page. *)
Definition probed_extension (pg : nat) : string :=
  match probe codec doc pg with
  | Ok (Some img) => default "png" (prof_ext img)
  | _ => "png"
  end.

(** One turn of the loop of [iter_contents] as a function of the page and
    of the worker's state before it. *)
Definition page_entry (pg : nat) (page : Page) (w : FitzWorker)
  : Entry * FitzWorker :=
  if _complex_doc w then (Rendered pg, w)
  else if forced_render page then (Rendered pg, set_complex_doc w)
  else if single_full_page_image page then
    match _extension w with
    | Some ext => (Extracted pg (first_xref page) ext, w)
    | None =>
        (Extracted pg (first_xref page) (probed_extension pg),
         set_extension (probed_extension pg)
           (note_probe (CallCheckImageType pg) w))
    end
  else (Rendered pg, w).

Fixpoint entries_from (pg : nat) (ps : list Page) (w : FitzWorker)
  : list Entry * FitzWorker :=
  match ps with
  | [] => ([], w)
  | page :: rest =>
      let '(e, w1) := page_entry pg page w in
      let '(es, w2) := entries_from (S pg) rest w1 in
      (e :: es, w2)
  end.

Lemma _must_render_page_eq pg page w :
  pages doc !! pg = Some page ->
  _must_render_page doc pg w =
  (Ok (forced_render page), if forced_render page then set_complex_doc w else w).
Proof.
  intros Hpg. unfold _must_render_page, bind, lift, doc_page.
  rewrite Hpg. unfold forced_render.
  destruct (negb _ || _); reflexivity.
Qed.

Lemma _can_extract_image_eq pg page w :
  pages doc !! pg = Some page ->
  _can_extract_image doc pg w = (Ok (single_full_page_image page), w).
Proof.
  intros Hpg. unfold _can_extract_image, bind, lift, doc_page.
  rewrite Hpg. unfold single_full_page_image.
  destruct (get_image_info page) as [|info [|info' rest]]; reflexivity.
Qed.

Lemma _extract_as_image_eq pg page w :
  pages doc !! pg = Some page ->
  _extract_as_image doc pg w =
  if _complex_doc w then (Ok false, w)
  else if forced_render page then (Ok false, set_complex_doc w)
  else (Ok (single_full_page_image page), w).
Proof.
  intros Hpg. unfold _extract_as_image, bind, get.
  destruct (_complex_doc w); [reflexivity|].
  rewrite (_must_render_page_eq _ _ _ Hpg).
  destruct (forced_render page); [reflexivity|].
  cbn [negb]. rewrite (_can_extract_image_eq _ _ _ Hpg).
  destruct (single_full_page_image page); reflexivity.
Qed.

Lemma _image_extension_eq pg w :
  _image_extension codec doc pg w =
  match _extension w with
  | Some ext => (Ok ext, w)
  | None =>
      (Ok (probed_extension pg),
       set_extension (probed_extension pg) (note_probe (CallCheckImageType pg) w))
  end.
Proof.
  unfold _image_extension, bind, get.
  destruct (_extension w); [reflexivity|].
  unfold _check_image_type, probed_extension, bind, modify.
  destruct (probe codec doc pg) as [[img|]|e]; reflexivity.
Qed.

Lemma iter_contents_body_eq pg page w :
  pages doc !! pg = Some page ->
  iter_contents_body codec doc pg w =
  (Ok (filename_of (page_entry pg page w).1), (page_entry pg page w).2).
Proof.
  intros Hpg. unfold iter_contents_body, bind, page_entry.
  rewrite (_extract_as_image_eq _ _ _ Hpg).
  destruct (_complex_doc w); [reflexivity|].
  destruct (forced_render page); [reflexivity|].
  destruct (single_full_page_image page); [|reflexivity].
  unfold lift, _get_image_xref. rewrite Hpg.
  unfold first_xref.
  destruct (get_images page) as [|xref rest];
    rewrite _image_extension_eq; destruct (_extension w); reflexivity.
Qed.

Lemma iter_contents_loop_eq ps : forall a w,
  (forall i page, ps !! i = Some page -> pages doc !! (a + i)%nat = Some page) ->
  iter_contents_loop codec doc (seq a (length ps)) w =
  (Ok (map filename_of (entries_from a ps w).1), (entries_from a ps w).2).
Proof.
  induction ps as [|page rest IH]; intros a w Hps; [reflexivity|].
  cbn [length seq iter_contents_loop entries_from].
  unfold bind at 1.
  rewrite (iter_contents_body_eq a page w).
  2:{ specialize (Hps 0%nat page eq_refl). by rewrite Nat.add_0_r in Hps. }
  destruct (page_entry a page w) as [e w1]. cbn [fst snd].
  unfold bind at 1. rewrite (IH (S a) w1).
  2:{ intros i p Hi. specialize (Hps (S i) p Hi).
      by replace (S a + i)%nat with (a + S i)%nat by lia. }
  destruct (entries_from (S a) rest w1) as [es w2]. reflexivity.
Qed.

Lemma iter_contents_eq w :
  iter_contents codec doc w =
  (Ok (map filename_of (entries_from 0 (pages doc) w).1),
   (entries_from 0 (pages doc) w).2).
Proof.
  unfold iter_contents, page_count. apply iter_contents_loop_eq.
  intros i page Hi. exact Hi.
Qed.

End Listing.

(** ** [int] reads back what [format_04] writes *)

Module PyFacts.

Import Py.

Lemma len_app s t : len (s +:+ t) = (len s + len t)%nat.
Proof. unfold len. induction s as [|c s IH]; simpl; [reflexivity|]. by f_equal. Qed.

Lemma len_zeros k : len (zeros k) = k.
Proof. unfold len. induction k as [|k IH]; simpl; [reflexivity|]. by f_equal. Qed.

Lemma take_app s t : take (len s) (s +:+ t) = s.
Proof. unfold len. induction s as [|c s IH]; simpl; [by destruct t|]. by f_equal. Qed.

Lemma drop_app s t : drop (len s) (s +:+ t) = t.
Proof. unfold len. induction s as [|c s IH]; simpl; [by destruct t|]. exact IH. Qed.

Lemma take_last_app s t : take_last (len t) (s +:+ t) = t.
Proof.
  unfold take_last. rewrite len_app.
  replace (len s + len t - len t)%nat with (len s) by lia. apply drop_app.
Qed.

(** Strings made of decimal digits. *)
Fixpoint all_digits (s : string) : bool :=
  match s with
  | EmptyString => true
  | String c s' =>
      match digit_val c with
      | Some _ => all_digits s'
      | None => false
      end
  end.

Lemma all_digits_cons c s :
  all_digits (String c s) = true -> is_Some (digit_val c) /\ all_digits s = true.
Proof. simpl. destruct (digit_val c); [eauto|discriminate]. Qed.

Lemma all_digits_app s t :
  all_digits s = true -> all_digits t = true -> all_digits (s +:+ t) = true.
Proof.
  intros Hs Ht. induction s as [|c s IH]; simpl; [exact Ht|].
  apply all_digits_cons in Hs as [[d Hd] Hs]. rewrite Hd. by apply IH.
Qed.

Lemma all_digits_zeros k : all_digits (zeros k) = true.
Proof. induction k as [|k IH]; [reflexivity|exact IH]. Qed.

Lemma all_digits_uint d : all_digits (NilEmpty.string_of_uint d) = true.
Proof. induction d; [reflexivity|exact IHd..]. Qed.

Lemma all_digits_decimal n : all_digits (decimal n) = true.
Proof.
  unfold decimal, NilZero.string_of_uint.
  destruct (N.to_uint n); first [reflexivity | apply (all_digits_uint (_ _))].
Qed.

Lemma decimal_nonempty n : decimal n <> EmptyString.
Proof.
  unfold decimal, NilZero.string_of_uint. destruct (N.to_uint n); discriminate.
Qed.

Lemma digit_not_space c : is_Some (digit_val c) -> is_space c = false.
Proof.
  destruct c as [[] [] [] [] [] [] [] []]; intros [d Hd];
    first [reflexivity | discriminate Hd].
Qed.

Lemma lstrip_digits s : all_digits s = true -> lstrip s = s.
Proof.
  destruct s as [|c s]; [reflexivity|].
  intros [Hc _]%all_digits_cons. simpl. by rewrite (digit_not_space c Hc).
Qed.

Lemma rstrip_opt_digits s :
  all_digits s = true -> s <> EmptyString -> rstrip_opt s = Some s.
Proof.
  induction s as [|c s IH]; [done|].
  intros [Hc Hs]%all_digits_cons _. simpl.
  destruct s as [|c' s'].
  - simpl. by rewrite (digit_not_space c Hc).
  - by rewrite IH.
Qed.

Lemma strip_digits s : all_digits s = true -> strip s = s.
Proof.
  intros Hs. unfold strip. rewrite (lstrip_digits s Hs).
  destruct s as [|c s]; [reflexivity|]. by rewrite rstrip_opt_digits.
Qed.

Lemma strip_minus_digits s :
  all_digits s = true -> s <> EmptyString -> strip (String "-" s) = String "-" s.
Proof.
  intros Hs Hne. unfold strip. cbn [lstrip]. change (is_space "-") with false.
  cbv iota. cbn [rstrip_opt]. by rewrite (rstrip_opt_digits s Hs Hne).
Qed.

Ltac digit_step :=
  cbn [NilEmpty.string_of_uint parse_digits Pos.of_uint_acc Pos.of_uint];
  first [ progress change (digit_val "0") with (Some 0) | progress change (digit_val "1") with (Some 1)
        | progress change (digit_val "2") with (Some 2) | progress change (digit_val "3") with (Some 3)
        | progress change (digit_val "4") with (Some 4) | progress change (digit_val "5") with (Some 5)
        | progress change (digit_val "6") with (Some 6) | progress change (digit_val "7") with (Some 7)
        | progress change (digit_val "8") with (Some 8) | progress change (digit_val "9") with (Some 9) ];
  cbv iota.

(** The digits after a positive accumulator continue it in base ten. *)
Lemma parse_digits_acc d : forall p,
  parse_digits true (Z.pos p) (NilEmpty.string_of_uint d) =
  Some (Z.pos (Pos.of_uint_acc d p)).
Proof.
  induction d; intros p; [reflexivity|..];
    digit_step; rewrite <- IHd; f_equal; lia.
Qed.

Lemma parse_digits_uint d :
  parse_digits true 0 (NilEmpty.string_of_uint d) = Some (Z.of_N (Pos.of_uint d)).
Proof.
  induction d; [reflexivity|..]; digit_step;
    first [exact IHd | apply (parse_digits_acc d)].
Qed.

Lemma parse_digits_first b acc c s :
  is_Some (digit_val c) ->
  parse_digits b acc (String c s) = parse_digits true acc (String c s).
Proof. intros [d Hd]. simpl. by rewrite Hd. Qed.

Lemma parse_digits_zeros k : forall b s,
  parse_digits b 0 (zeros k +:+ s) = parse_digits (b || (0 <? k)%nat) 0 s.
Proof.
  induction k as [|k IH]; intros b s.
  - simpl. by rewrite orb_false_r.
  - change (zeros (S k) +:+ s) with (String "0" (zeros k +:+ s)).
    cbn [parse_digits]. change (digit_val "0") with (Some 0).
    cbv iota. change (10 * 0 + 0) with 0. rewrite IH. simpl. by rewrite orb_true_r.
Qed.

Lemma parse_decimal b n :
  parse_digits b 0 (decimal n) = Some (Z.of_N n).
Proof.
  pose proof (decimal_nonempty n) as Hne.
  pose proof (all_digits_decimal n) as Hd.
  destruct (decimal n) as [|c s] eqn:E; [done|].
  apply all_digits_cons in Hd as [Hc _].
  rewrite (parse_digits_first b 0 c s Hc), <- E.
  rewrite <- (DecimalN.Unsigned.of_to n) at 2.
  unfold decimal, NilZero.string_of_uint.
  destruct (N.to_uint n) eqn:Eu; [reflexivity|..]; rewrite <- Eu at 1;
    rewrite Eu; apply parse_digits_uint.
Qed.

Lemma parse_padded b k n :
  parse_digits b 0 (zeros k +:+ decimal n) = Some (Z.of_N n).
Proof. rewrite parse_digits_zeros. apply parse_decimal. Qed.

Lemma padded_digits k n : all_digits (zeros k +:+ decimal n) = true.
Proof. apply all_digits_app; [apply all_digits_zeros|apply all_digits_decimal]. Qed.

Lemma padded_nonempty k n : zeros k +:+ decimal n <> EmptyString.
Proof.
  pose proof (decimal_nonempty n). destruct k; simpl; [done|discriminate].
Qed.

Lemma digits_unsigned s :
  all_digits s = true ->
  match s with
  | String "-" r => (true, r)
  | String "+" r => (false, r)
  | _ => (false, s)
  end = (false, s).
Proof.
  destruct s as [|c s]; [reflexivity|].
  intros [[d Hd] _]%all_digits_cons.
  destruct c as [[] [] [] [] [] [] [] []]; first [reflexivity | discriminate Hd].
Qed.

(** [int(f"{n:04}") == n], for every integer. *)
Lemma int_format_04 (n : Z) : int (format_04 n) = Ok n.
Proof.
  unfold int, format_04. destruct (Z.ltb_spec n 0) as [Hneg|Hpos].
  - rewrite strip_minus_digits by (apply padded_digits || apply padded_nonempty).
    cbv iota beta. rewrite parse_padded. f_equal. lia.
  - rewrite strip_digits by apply padded_digits.
    rewrite digits_unsigned by apply padded_digits.
    rewrite parse_padded. f_equal. lia.
Qed.

(** The field is four characters at least. *)
Lemma len_format_04 (n : Z) : (4 <= len (format_04 n))%nat.
Proof.
  unfold format_04. destruct (n <? 0).
  - change (len (String "-" ?s)) with (S (len s)).
    rewrite len_app, len_zeros. lia.
  - rewrite len_app, len_zeros. lia.
Qed.

End PyFacts.

(** ** Invariants of the listing loop *)

Section ListingFacts.

Context (codec : Codec) (doc : Document).

Lemma entries_from_cons a page rest w :
  entries_from codec doc a (page :: rest) w =
  ((page_entry codec doc a page w).1 :: (entries_from codec doc (S a) rest (page_entry codec doc a page w).2).1,
   (entries_from codec doc (S a) rest (page_entry codec doc a page w).2).2).
Proof.
  cbn [entries_from]. destruct (page_entry codec doc a page w) as [e w1].
  cbn [fst snd]. by destruct (entries_from codec doc (S a) rest w1).
Qed.

Lemma entries_from_length ps : forall a w,
  length (entries_from codec doc a ps w).1 = length ps.
Proof.
  induction ps as [|page rest IH]; intros a w; [reflexivity|].
  rewrite entries_from_cons. cbn [fst length]. by rewrite IH.
Qed.

Lemma page_entry_page a page w : entry_page (page_entry codec doc a page w).1 = a.
Proof.
  unfold page_entry.
  destruct (_complex_doc w), (forced_render page),
    (single_full_page_image page), (_extension w); reflexivity.
Qed.

(** The entry at position [i] is the one of page index [a + i]. *)
Lemma entries_from_lookup ps : forall a w i e,
  (entries_from codec doc a ps w).1 !! i = Some e ->
  exists page w0,
    ps !! i = Some page /\ e = (page_entry codec doc (a + i) page w0).1.
Proof.
  induction ps as [|page rest IH]; intros a w i e; [done|].
  rewrite entries_from_cons. cbn [fst]. destruct i as [|i].
  - intros [= <-]. exists page, w. by rewrite Nat.add_0_r.
  - cbn [lookup list_lookup]. intros (p & w0 & Hp & He)%IH.
    exists p, w0. split; [exact Hp|]. by replace (a + S i)%nat with (S a + i)%nat by lia.
Qed.

(** Once the flag is set it stays set, and every page is rendered. *)
Lemma page_entry_complex a page w :
  _complex_doc w = true -> page_entry codec doc a page w = (Rendered a, w).
Proof. intros H. unfold page_entry. by rewrite H. Qed.

Lemma entries_from_complex ps : forall a w,
  _complex_doc w = true ->
  entries_from codec doc a ps w = (map Rendered (seq a (length ps)), w).
Proof.
  induction ps as [|page rest IH]; intros a w Hw; [reflexivity|].
  rewrite entries_from_cons, (page_entry_complex _ _ _ Hw). cbn [fst snd].
  by rewrite (IH _ _ Hw).
Qed.

Lemma page_entry_forced a page w :
  forced_render page = true ->
  (page_entry codec doc a page w).1 = Rendered a /\
  _complex_doc (page_entry codec doc a page w).2 = true.
Proof.
  intros H. unfold page_entry. rewrite H.
  by destruct (_complex_doc w) eqn:E.
Qed.

(** After a page that fails the must-render test, every page is
    rendered. *)
Lemma entries_from_after_forced ps : forall a w i j page,
  ps !! i = Some page -> forced_render page = true ->
  (i < j < length ps)%nat ->
  (entries_from codec doc a ps w).1 !! j = Some (Rendered (a + j)).
Proof.
  induction ps as [|p rest IH]; intros a w i j page Hi Hf Hij; [done|].
  rewrite entries_from_cons. cbn [fst]. cbn [length] in Hij.
  destruct j as [|j]; [lia|]. cbn [lookup list_lookup].
  destruct i as [|i].
  - injection Hi as ->.
    destruct (page_entry_forced a page w Hf) as [_ Hc].
    rewrite (entries_from_complex _ _ _ Hc). cbn [fst].
    change (map Rendered (seq (S a) (length rest)) !! j = Some (Rendered (a + S j))).
    rewrite list_lookup_fmap, lookup_seq_lt by lia. cbn. f_equal. f_equal. lia.
  - replace (a + S j)%nat with (S a + j)%nat by lia.
    apply (IH (S a) _ i j page); [exact Hi|exact Hf|lia].
Qed.

Lemma entries_from_forced_flag ps : forall a w i page,
  ps !! i = Some page -> forced_render page = true ->
  _complex_doc (entries_from codec doc a ps w).2 = true.
Proof.
  induction ps as [|p rest IH]; intros a w i page Hi Hf; [done|].
  rewrite entries_from_cons. cbn [snd]. destruct i as [|i].
  - injection Hi as ->.
    destruct (page_entry_forced a page w Hf) as [_ Hc].
    by rewrite (entries_from_complex _ _ _ Hc).
  - by apply (IH _ _ i page).
Qed.

(** With the extension known, nothing is probed and every extracted
    entry carries it. *)
Lemma entries_from_known_extension ps : forall a w ext,
  _extension w = Some ext ->
  _extension (entries_from codec doc a ps w).2 = Some ext /\
  probes (entries_from codec doc a ps w).2 = probes w /\
  forall pg xref e, Extracted pg xref e ∈ (entries_from codec doc a ps w).1 -> e = ext.
Proof.
  induction ps as [|page rest IH]; intros a w ext Hw.
  - cbn. split; [exact Hw|]. split; [reflexivity|]. intros pg xref e H.
    by apply elem_of_nil in H.
  - rewrite entries_from_cons. cbn [fst snd].
    assert (_extension (page_entry codec doc a page w).2 = Some ext /\
            probes (page_entry codec doc a page w).2 = probes w /\
            forall pg xref e, (page_entry codec doc a page w).1 = Extracted pg xref e -> e = ext)
      as (H1 & H2 & H3).
    { unfold page_entry. rewrite Hw.
      destruct (_complex_doc w), (forced_render page),
        (single_full_page_image page); cbn; (split; [exact Hw|]);
        (split; [reflexivity|]); intros pg xref e; congruence. }
    destruct (IH (S a) _ ext H1) as (I1 & I2 & I3).
    split; [exact I1|]. split; [by rewrite I2|].
    intros pg xref e [He|He]%elem_of_cons; [by eapply H3|by eapply I3].
Qed.

(** With no extension yet: either no page is extracted and nothing is
    probed, or the first extracted page [p] is probed, once, and its
    extension is the one of every extracted entry. *)
Lemma entries_from_first_probe ps : forall a w,
  _extension w = None ->
  ((forall e, e ∈ (entries_from codec doc a ps w).1 -> is_extracted e = false) /\
   probes (entries_from codec doc a ps w).2 = probes w /\
   _extension (entries_from codec doc a ps w).2 = None)
  \/
  (exists i p xref,
     (entries_from codec doc a ps w).1 !! i = Some (Extracted p xref (probed_extension codec doc p)) /\
     (forall j e, (j < i)%nat -> (entries_from codec doc a ps w).1 !! j = Some e ->
                  is_extracted e = false) /\
     probes (entries_from codec doc a ps w).2 = probes w ++ [CallCheckImageType p] /\
     _extension (entries_from codec doc a ps w).2 = Some (probed_extension codec doc p) /\
     forall pg x e, Extracted pg x e ∈ (entries_from codec doc a ps w).1 ->
                    e = probed_extension codec doc p).
Proof.
  induction ps as [|page rest IH]; intros a w Hw.
  - left. cbn. split; [|done]. intros e H. by apply elem_of_nil in H.
  - rewrite entries_from_cons. cbn [fst snd].
    destruct (is_extracted (page_entry codec doc a page w).1) eqn:Hex.
    + (* this page is the first extracted one *)
      right.
      assert ((page_entry codec doc a page w).1 =
                Extracted a (first_xref page) (probed_extension codec doc a) /\
              (page_entry codec doc a page w).2 =
                set_extension (probed_extension codec doc a)
                  (note_probe (CallCheckImageType a) w)) as [He Hw1].
      { revert Hex. unfold page_entry. rewrite Hw.
        destruct (_complex_doc w), (forced_render page),
          (single_full_page_image page); cbn; done. }
      rewrite He, Hw1.
      destruct (entries_from_known_extension rest (S a)
                  (set_extension (probed_extension codec doc a)
                     (note_probe (CallCheckImageType a) w))
                  (probed_extension codec doc a) eq_refl) as (K1 & K2 & K3).
      exists 0%nat, a, (first_xref page).
      split; [reflexivity|]. split; [intros j e Hj; lia|].
      split; [by rewrite K2|]. split; [exact K1|].
      intros pg x e [He'|He']%elem_of_cons; [congruence|by eapply K3].
    + (* this page is rendered: the state keeps no extension *)
      assert (_extension (page_entry codec doc a page w).2 = None /\
              probes (page_entry codec doc a page w).2 = probes w) as [Hn Hp].
      { revert Hex. unfold page_entry. rewrite Hw.
        destruct (_complex_doc w), (forced_render page),
          (single_full_page_image page); cbn; done. }
      destruct (IH (S a) _ Hn) as [(A1 & A2 & A3)|(i & p & xref & B1 & B2 & B3 & B4 & B5)].
      * left. split; [|split; [congruence|exact A3]].
        intros e [->|He]%elem_of_cons; [exact Hex|by apply A1].
      * right. exists (S i), p, xref.
        split; [exact B1|]. split.
        { intros [|j] e Hj; cbn [lookup list_lookup].
          - by intros [= <-].
          - apply B2. lia. }
        split; [congruence|]. split; [exact B4|].
        intros pg x e [He|He]%elem_of_cons; [|by eapply B5].
        rewrite <- He in Hex. discriminate Hex.
Qed.

Lemma existsb_lookup {A} (f : A -> bool) (l : list A) :
  existsb f l = true -> exists i x, l !! i = Some x /\ f x = true.
Proof.
  induction l as [|a l IH]; [done|]. cbn [existsb].
  intros [H|H]%orb_true_iff.
  - by exists 0%nat, a.
  - destruct (IH H) as (i & x & Hi & Hx). by exists (S i), x.
Qed.

(** The must-render test of [_must_render_page], in the words of the
    source: [len(image_list) != 1 or len(page.get_text()) > 0]. *)
Lemma forced_render_iff (page : Page) :
  forced_render page = true <->
  (length (get_images page) <> 1%nat \/ get_text page <> EmptyString).
Proof.
  unfold forced_render. split.
  - intros [H|H]%orb_true_iff.
    + left. apply negb_true_iff, Nat.eqb_neq in H. exact H.
    + right. by destruct (get_text page).
  - intros [H|H]; apply orb_true_iff.
    + left. by apply negb_true_iff, Nat.eqb_neq.
    + right. by destruct (get_text page).
Qed.

Lemma page_entry_flag a page w :
  _complex_doc (page_entry codec doc a page w).2 = _complex_doc w || forced_render page.
Proof.
  unfold page_entry.
  destruct (_complex_doc w) eqn:Hw, (forced_render page),
    (single_full_page_image page), (_extension w); cbn; by rewrite ?Hw.
Qed.

(** The worker examines page [i] with the flag set exactly when a page
    before it failed the must-render test. *)
Lemma entries_from_state_before ps : forall a w i e,
  (entries_from codec doc a ps w).1 !! i = Some e ->
  exists page w0,
    ps !! i = Some page /\
    e = (page_entry codec doc (a + i) page w0).1 /\
    _complex_doc w0 = _complex_doc w || existsb forced_render (take i ps).
Proof.
  induction ps as [|p rest IH]; intros a w i e; [done|].
  rewrite entries_from_cons. cbn [fst]. destruct i as [|i].
  - intros [= <-]. exists p, w. rewrite Nat.add_0_r.
    cbn. by rewrite orb_false_r.
  - cbn [lookup list_lookup]. intros (page & w0 & Hp & He & Hflag)%IH.
    exists page, w0. split; [exact Hp|]. split.
    + by replace (a + S i)%nat with (S a + i)%nat by lia.
    + rewrite Hflag, page_entry_flag. cbn [take existsb]. by rewrite orb_assoc.
Qed.

(** At the end of the listing the flag is set exactly when it was set
    before or some page failed the must-render test. *)
Lemma entries_from_flag ps : forall a w,
  _complex_doc (entries_from codec doc a ps w).2 =
  _complex_doc w || existsb forced_render ps.
Proof.
  induction ps as [|p rest IH]; intros a w.
  - cbn. by rewrite orb_false_r.
  - rewrite entries_from_cons. cbn [snd existsb].
    by rewrite IH, page_entry_flag, orb_assoc.
Qed.

End ListingFacts.

(** ** Sample documents *)

Module Sample.

(** A codec whose images remember the transposes applied to them, and
    whose profile of a non-empty stream is a JPEG. *)
Definition codec : Codec := {|
  PilImage := bytes * list Transpose;
  Image_open := fun data => Ok (data, []);
  Image_transpose := fun img t => (img.1, img.2 ++ [t]);
  Image_save := fun img _ =>
    Ok (img.1 ++ map (fun t => match t with
                               | ROTATE_90 => Byte.x01
                               | ROTATE_180 => Byte.x02
                               | ROTATE_270 => Byte.x03
                               end) img.2);
  image_profile := fun stream =>
    match stream with
    | [] => Ok None
    | _ => Ok (Some {| prof_ext := Some "jpg" |})
    end;
  pixmap_png := fun _ dpi => [Byte.x89; Byte.x50; Byte.x4e; Byte.x47]
|}.

Definition rect (w h : Z) : IRect := {| x0 := 0; y0 := 0; x1 := w; y1 := h |}.

(** A page of 100 x 100 holding one image of [w] x [h] and no text. *)
Definition image_page (xref w h rot : Z) : Page := {|
  get_images := [xref];
  get_text := EmptyString;
  get_image_info := [ {| bbox := Some (rect w h) |} ];
  mediabox := rect 100 100;
  rotation := rot
|}.

(** A page of text around one image. *)
Definition mixed_page (xref : Z) : Page := {|
  get_images := [xref];
  get_text := "Chapter 1";
  get_image_info := [ {| bbox := Some (rect 100 100) |} ];
  mediabox := rect 100 100;
  rotation := 0
|}.

(** A document whose only image object is xref 42. *)
Definition document (ps : list Page) : Document := {|
  pages := ps;
  extract_image := fun xref =>
    if xref =? 42 then Ok (Some {| img_image := Some [Byte.xff; Byte.xd8] |})
    else Ok None;
  xref_stream_raw := fun xref => Ok [Byte.xff]
|}.

(** Scenario A: a full-page JPEG, then two pages of text and image. *)
Definition scenario_a : Document :=
  document [image_page 42 100 100 0; mixed_page 43; mixed_page 44].

(** Scenario B first (an image over 40% of the page), then a full-page
    image. *)
Definition scenario_b_then_full : Document :=
  document [image_page 42 40 100 0; image_page 43 100 100 0].

(** A full-page image whose xref has five digits. *)
Definition wide_xref : Document :=
  document [image_page 12345 100 100 0].

(** One page, rotated by 90 degrees. *)
Definition rotated : Document :=
  document [image_page 42 100 100 90].

(** Two full-page images whose streams cannot be read as the probe
    wants them. *)
Definition exotic : Document := {|
  pages := [image_page 42 100 100 0; image_page 43 100 100 0];
  extract_image := fun xref => Ok (Some {| img_image := Some [Byte.x89] |});
  xref_stream_raw := fun xref => Raise TypeError
|}.

Definition empty_world : World := {| dirs := ∅; files := ∅; calls := [] |}.

End Sample.

(** ** The classification of one page *)

(** C3. A page examined while the complex flag is unset is MustRender
    ([False] below), and the flag is set, when its embedded-image count is
    not 1 or its text is not empty; otherwise, on the placed-image info, it
    is MustRender when the placed-image count is not 1, and with one placed
    image it is ExtractableImage ([True]) exactly when
    [abs(page_area - image_area) < 0.05 * page_area]. *)
Theorem classification_per_page (doc : Document) (pg : nat) (page : Page)
    (w : FitzWorker) :
  pages doc !! pg = Some page ->
  _complex_doc w = false ->
  ((length (get_images page) <> 1%nat \/ get_text page <> EmptyString) ->
   _extract_as_image doc pg w = (Ok false, set_complex_doc w) /\
   _complex_doc (set_complex_doc w) = true)
  /\
  (length (get_images page) = 1%nat -> get_text page = EmptyString ->
   (length (get_image_info page) <> 1%nat ->
    _extract_as_image doc pg w = (Ok false, w))
   /\
   (forall info, get_image_info page = [info] ->
      let page_area := get_area (mediabox page) in
      let image_area := get_area (default zero_rect (bbox info)) in
      _extract_as_image doc pg w =
      (Ok (PrimFloat.ltb (PrimFloat.abs (PrimFloat.sub page_area image_area))
                         (PrimFloat.mul float_0_05 page_area)), w))).
Proof.
  intros Hpg Hw. rewrite (_extract_as_image_eq doc pg page w Hpg), Hw.
  split.
  - intros Hforced. split; [|reflexivity].
    assert (forced_render page = true) as ->; [|reflexivity].
    unfold forced_render. destruct Hforced as [Himg|Htxt].
    + apply Nat.eqb_neq in Himg. by rewrite Himg.
    + destruct (get_text page); [done|]. by rewrite orb_true_r.
  - intros Himg Htxt.
    assert (forced_render page = false) as ->.
    { unfold forced_render. by rewrite Himg, Htxt. }
    split.
    + intros Hinfo. unfold single_full_page_image.
      by destruct (get_image_info page) as [|info [|info' rest]].
    + intros info Hinfo. unfold single_full_page_image. by rewrite Hinfo.
Qed.

Lemma classification_per_page_witness :
  _extract_as_image Sample.scenario_a 0 FitzWorker_init = (Ok true, FitzWorker_init)
  /\ _extract_as_image Sample.scenario_a 1 FitzWorker_init
     = (Ok false, set_complex_doc FitzWorker_init)
  /\ _extract_as_image Sample.scenario_b_then_full 0 FitzWorker_init
     = (Ok false, FitzWorker_init).
Proof.
  split; [|split].
  - destruct (classification_per_page Sample.scenario_a 0
                (Sample.image_page 42 100 100 0) FitzWorker_init eq_refl eq_refl)
      as [_ H].
    destruct (H eq_refl eq_refl) as [_ H2]. exact (H2 _ eq_refl).
  - destruct (classification_per_page Sample.scenario_a 1
                (Sample.mixed_page 43) FitzWorker_init eq_refl eq_refl)
      as [H _].
    apply H. right. discriminate.
  - destruct (classification_per_page Sample.scenario_b_then_full 0
                (Sample.image_page 42 40 100 0) FitzWorker_init eq_refl eq_refl)
      as [_ H].
    destruct (H eq_refl eq_refl) as [_ H2]. exact (H2 _ eq_refl).
Defined.

(** ** The listing *)

(** C4. [iter_contents] yields one filename per page, [page_count] of
    them, in ascending page order; the one of page index [i] is
    [page{i+1:04}.png] or [page{i+1:04}_mcmxref{xref:04}.{ext}], where the
    page field has four characters at least and reads back as [i + 1]. *)
Theorem listing_shape_and_order (codec : Codec) (doc : Document) :
  exists names w',
    iter_contents codec doc FitzWorker_init = (Ok names, w') /\
    length names = page_count doc /\
    forall i, (i < page_count doc)%nat ->
      (names !! i = Some (rendered_name i) \/
       exists xref ext, names !! i = Some (extracted_name i xref ext)) /\
      (4 <= Py.len (Py.format_04 (Z.of_nat i + 1)))%nat /\
      Py.int (Py.format_04 (Z.of_nat i + 1)) = Ok (Z.of_nat i + 1).
Proof.
  rewrite iter_contents_eq.
  set (r := entries_from codec doc 0 (pages doc) FitzWorker_init).
  exists (map filename_of r.1), r.2.
  split; [reflexivity|]. split.
  { rewrite length_map. apply entries_from_length. }
  intros i Hi. split; [|split].
  - assert (is_Some (r.1 !! i)) as [e He].
    { apply lookup_lt_is_Some. subst r. by rewrite entries_from_length. }
    rewrite list_lookup_fmap, He. cbn [fmap option_fmap option_map].
    destruct (entries_from_lookup codec doc _ _ _ _ _ He) as (page & w0 & _ & Hentry).
    pose proof (page_entry_page codec doc (0 + i) page w0) as Hpage.
    rewrite <- Hentry in Hpage. cbn [Nat.add] in Hpage.
    destruct e as [pg|pg xref ext]; cbn in Hpage; subst pg.
    + by left.
    + right. by exists xref, ext.
  - apply PyFacts.len_format_04.
  - apply PyFacts.int_format_04.
Qed.

Lemma listing_shape_and_order_witness :
  exists names w',
    iter_contents Sample.codec Sample.scenario_a FitzWorker_init = (Ok names, w') /\
    length names = 3%nat /\
    (names !! 2%nat = Some "page0003.png" \/
     exists xref ext, names !! 2%nat = Some (extracted_name 2 xref ext)).
Proof.
  destruct (listing_shape_and_order Sample.codec Sample.scenario_a)
    as (names & w' & Hrun & Hlen & Hall).
  exists names, w'. split; [exact Hrun|]. split; [exact Hlen|].
  destruct (Hall 2%nat) as [Hshape _]; [vm_compute; lia|]. exact Hshape.
Defined.

(** C2, as the code has it. Once a page fails the must-render test
    (embedded-image count not 1, or text not empty), every later page of
    the listing is rendered, whatever it holds, and the flag is set.  The
    flag is set by that test alone: it ends up set only when some page
    fails it, so a page rendered because of the full-page-image test
    leaves it as it was.  And a page that no failing page comes before is
    named as a new worker classifies it by [_extract_as_image], whatever
    the full-page-image test said of the pages before it. *)
Theorem complex_flag_short_circuit (codec : Codec) (doc : Document) :
  exists names w',
    iter_contents codec doc FitzWorker_init = (Ok names, w') /\
    (forall i j page,
      pages doc !! i = Some page ->
      (length (get_images page) <> 1%nat \/ get_text page <> EmptyString) ->
      (i < j < page_count doc)%nat ->
      names !! j = Some (rendered_name j) /\ _complex_doc w' = true) /\
    (_complex_doc w' = true ->
     exists i page,
       pages doc !! i = Some page /\
       (length (get_images page) <> 1%nat \/ get_text page <> EmptyString)) /\
    (forall j page,
      pages doc !! j = Some page ->
      (forall i p, (i < j)%nat -> pages doc !! i = Some p ->
                   length (get_images p) = 1%nat /\ get_text p = EmptyString) ->
      exists b,
        (_extract_as_image doc j FitzWorker_init).1 = Ok b /\
        if b
        then exists ext, names !! j = Some (extracted_name j (first_xref page) ext)
        else names !! j = Some (rendered_name j)).
Proof.
  rewrite iter_contents_eq.
  set (r := entries_from codec doc 0 (pages doc) FitzWorker_init).
  exists (map filename_of r.1), r.2. split; [reflexivity|].
  split; [|split].
  - intros i j page Hi Hforced Hij.
    apply forced_render_iff in Hforced as Hf.
    split.
    + rewrite list_lookup_fmap. subst r.
      by rewrite (entries_from_after_forced codec doc _ 0 _ i j page Hi Hf Hij).
    + subst r. by apply (entries_from_forced_flag codec doc _ 0 _ i page).
  - subst r. rewrite entries_from_flag. cbn [_complex_doc FitzWorker_init orb].
    intros (i & page & Hi & Hf)%existsb_lookup.
    exists i, page. split; [exact Hi|]. by apply forced_render_iff.
  - intros j page Hj Hbefore.
    assert (is_Some (r.1 !! j)) as [e He].
    { apply lookup_lt_is_Some. subst r. rewrite entries_from_length.
      by apply lookup_lt_Some in Hj. }
    destruct (entries_from_state_before codec doc _ _ _ _ _ He)
      as (page' & w0 & Hpage' & Hentry & Hflag).
    rewrite Hj in Hpage'. injection Hpage' as <-.
    assert (_complex_doc w0 = false) as Hw0.
    { rewrite Hflag. cbn [_complex_doc FitzWorker_init orb].
      destruct (existsb forced_render (take j (pages doc))) eqn:Hex; [|reflexivity].
      apply existsb_lookup in Hex as (i & p & Hi & Hf).
      apply lookup_take_Some in Hi as [Hi Hlt].
      destruct (Hbefore i p Hlt Hi) as [Himg Htxt].
      apply forced_render_iff in Hf as [Hf|Hf]; contradiction. }
    rewrite (_extract_as_image_eq doc j page FitzWorker_init Hj).
    cbn [_complex_doc FitzWorker_init].
    rewrite list_lookup_fmap, He, Hentry. cbn [fmap option_fmap option_map].
    unfold page_entry. rewrite Hw0. cbn [Nat.add].
    destruct (forced_render page); [by exists false|].
    destruct (single_full_page_image page); [|by exists false].
    exists true. split; [reflexivity|].
    destruct (_extension w0) as [ext|]; eexists; reflexivity.
Qed.

Lemma complex_flag_short_circuit_witness :
  exists names w',
    iter_contents Sample.codec Sample.scenario_a FitzWorker_init = (Ok names, w') /\
    names !! 2%nat = Some "page0003.png" /\ _complex_doc w' = true.
Proof.
  destruct (complex_flag_short_circuit Sample.codec Sample.scenario_a)
    as (names & w' & Hrun & Hall & _).
  exists names, w'. split; [exact Hrun|].
  apply (Hall 1%nat 2%nat (Sample.mixed_page 43)).
  - reflexivity.
  - right. discriminate.
  - vm_compute. lia.
Defined.

(** C2, as stated, fails: a page rendered because its one image does not
    cover the page leaves the flag unset, and a later full-page image is
    extracted. *)
Lemma short_circuit_not_after_geometry_test :
  ~ (forall (codec : Codec) (doc : Document) names w' (i j : nat),
       iter_contents codec doc FitzWorker_init = (Ok names, w') ->
       (i < j < page_count doc)%nat ->
       names !! i = Some (rendered_name i) ->
       names !! j = Some (rendered_name j)).
Proof.
  intros H.
  specialize (H Sample.codec Sample.scenario_b_then_full
                ["page0001.png"; "page0002_mcmxref0043.jpg"]
                {| _extension := Some "jpg"; _complex_doc := false;
                   probes := [CallCheckImageType 1] |}
                0%nat 1%nat).
  assert (["page0001.png"; "page0002_mcmxref0043.jpg"] !! 1%nat
          = Some (rendered_name 1)) as Hbad.
  { apply H; [vm_compute; reflexivity|vm_compute; lia|reflexivity]. }
  vm_compute in Hbad. discriminate Hbad.
Qed.

(** ** The extension probe *)

(** C7. [_check_image_type] never raises, and returns ['png'] when the
    probe raised or found no profile. In the listing of a new worker it
    runs at most once ([probes] lists its runs), for the first page that is
    extracted, and every extracted filename carries the extension it
    returned; a worker that knows its extension never runs it again. *)
Theorem extension_probe_once_with_png_fallback (codec : Codec) (doc : Document) :
  (forall pg w,
     _check_image_type codec doc pg w =
     (Ok (probed_extension codec doc pg), note_probe (CallCheckImageType pg) w) /\
     ((probe codec doc pg = Ok None \/ exists e, probe codec doc pg = Raise e) ->
      probed_extension codec doc pg = "png"))
  /\
  (exists es w',
    iter_contents codec doc FitzWorker_init = (Ok (map filename_of es), w') /\
    (((forall e, e ∈ es -> is_extracted e = false) /\ probes w' = [])
     \/
     exists i p xref,
       p = i /\
       es !! i = Some (Extracted p xref (probed_extension codec doc p)) /\
       (forall j e, (j < i)%nat -> es !! j = Some e -> is_extracted e = false) /\
       probes w' = [CallCheckImageType p] /\
       forall pg x ext, Extracted pg x ext ∈ es ->
                        ext = probed_extension codec doc p))
  /\
  (forall w known,
     _extension w = Some known ->
     exists es w',
       iter_contents codec doc w = (Ok (map filename_of es), w') /\
       probes w' = probes w /\
       _extension w' = Some known /\
       forall pg x ext, Extracted pg x ext ∈ es -> ext = known).
Proof.
  split; [|split].
  - intros pg w. split.
    + unfold _check_image_type, probed_extension, bind, modify.
      by destruct (probe codec doc pg) as [[img|]|e].
    + unfold probed_extension. intros [->|[e ->]]; reflexivity.
  - rewrite iter_contents_eq.
    set (r := entries_from codec doc 0 (pages doc) FitzWorker_init).
    exists r.1, r.2. split; [reflexivity|].
    destruct (entries_from_first_probe codec doc (pages doc) 0 FitzWorker_init eq_refl)
      as [(A1 & A2 & _)|(i & p & xref & B1 & B2 & B3 & _ & B5)].
    + left. split; [exact A1|exact A2].
    + right. exists i, p, xref. split; [|repeat split; assumption].
      destruct (entries_from_lookup codec doc _ _ _ _ _ B1) as (page & w0 & _ & He).
      apply (f_equal entry_page) in He. by rewrite page_entry_page in He.
  - intros w known Hknown. rewrite iter_contents_eq.
    destruct (entries_from_known_extension codec doc (pages doc) 0 w known Hknown)
      as (K1 & K2 & K3).
    eexists _, _. split; [reflexivity|].
    split; [exact K2|]. split; [exact K1|exact K3].
Qed.

Lemma extension_probe_once_with_png_fallback_witness :
  probed_extension Sample.codec Sample.exotic 0 = "png" /\
  exists es w',
    iter_contents Sample.codec Sample.exotic FitzWorker_init
    = (Ok (map filename_of es), w') /\
    (length (probes w') <= 1)%nat.
Proof.
  destruct (extension_probe_once_with_png_fallback Sample.codec Sample.exotic)
    as [Hprobe [(es & w' & Hrun & Hcases) _]].
  split.
  - apply (Hprobe 0%nat FitzWorker_init). right. exists TypeError. reflexivity.
  - exists es, w'. split; [exact Hrun|].
    destruct Hcases as [[_ ->]|(i & p & xref & _ & _ & _ & -> & _)]; cbn; lia.
Defined.

(** ** Extraction *)

(** How [extract_file] reads a name that holds the delimiter: the page
    index from the last four characters before it, the xref from the first
    four after it. *)
Definition decode_name (filename : string) : PyResult (Z * Z) :=
  match Py.split XREF_DELIMITER filename with
  | [pginfo; ref] =>
      match Py.int (Py.take_last 4 pginfo) with
      | Ok n =>
          match Py.int (Py.take 4 ref) with
          | Ok xref => Ok (n - 1, xref)
          | Raise e => Raise e
          end
      | Raise e => Raise e
      end
  | _ => Raise ValueError
  end.

Section ExtractionFacts.

Context (codec : Codec) (doc : Document) (auto_rotate : bool).

Lemma extract_file_xref filename dest w :
  Py.contains XREF_DELIMITER filename = true ->
  extract_file codec doc auto_rotate filename dest w =
  match decode_name filename with
  | Ok (page, xref) =>
      extract_xref codec doc auto_rotate page xref (OsPath.join dest filename) w
  | Raise e => (Raise e, w)
  end.
Proof.
  intros Hin. unfold extract_file, decode_name. rewrite Hin.
  destruct (Py.split XREF_DELIMITER filename) as [|pginfo [|ref [|more rest]]];
    try reflexivity.
  unfold bind, lift.
  destruct (Py.int (Py.take_last 4 pginfo)) as [n|e]; [|reflexivity].
  destruct (Py.int (Py.take 4 ref)) as [xref|e]; reflexivity.
Qed.

Lemma extract_xref_miss page xref path w :
  extract_image doc xref = Ok None ->
  extract_xref codec doc auto_rotate page xref path w =
  (Ok tt, {| dirs := dirs w; files := files w;
             calls := calls w ++ [CallExtractImage xref] |}).
Proof.
  intros Hmiss. unfold extract_xref, bind, note_call, modify, lift.
  by rewrite Hmiss.
Qed.

Lemma extract_file_miss filename dest page xref w :
  Py.contains XREF_DELIMITER filename = true ->
  decode_name filename = Ok (page, xref) ->
  extract_image doc xref = Ok None ->
  extract_file codec doc auto_rotate filename dest w =
  (Ok tt, {| dirs := dirs w; files := files w;
             calls := calls w ++ [CallExtractImage xref] |}).
Proof.
  intros Hin Hdec Hmiss. rewrite (extract_file_xref _ _ _ Hin), Hdec.
  by apply extract_xref_miss.
Qed.

(** One pull of the generator on a non-empty list. *)
Lemma _extract_pages_next_cons e rest dest w :
  _extract_pages_next codec doc auto_rotate
    {| entries := e :: rest; save_path := dest |} w =
  match extract_file codec doc auto_rotate e dest w with
  | (Ok _, w') => (Ok (Some (e, {| entries := rest; save_path := dest |})), w')
  | (Raise x, w') => (Raise x, w')
  end.
Proof.
  unfold _extract_pages_next, bind. cbn [entries save_path].
  by destruct (extract_file codec doc auto_rotate e dest w) as [[[]|x] w'].
Qed.

Lemma pull_cons n e rest dest w :
  pull codec doc auto_rotate (S n) {| entries := e :: rest; save_path := dest |} w =
  match extract_file codec doc auto_rotate e dest w with
  | (Ok _, w') =>
      let '(received, ending, w'') :=
        pull codec doc auto_rotate n {| entries := rest; save_path := dest |} w' in
      (e :: received, ending, w'')
  | (Raise x, w') => ([], Raised x, w')
  end.
Proof.
  cbn [pull]. rewrite _extract_pages_next_cons.
  by destruct (extract_file codec doc auto_rotate e dest w) as [[[]|x] w'].
Qed.

(** Consuming the generator to its end: the input is echoed in order, up
    to the first entry whose extraction raises. *)
Lemma pull_all es : forall dest w,
  exists received ending w',
    pull codec doc auto_rotate (S (length es))
      {| entries := es; save_path := dest |} w = (received, ending, w') /\
    ((ending = Exhausted /\ received = es)
     \/
     exists x e rest w1,
       ending = Raised x /\ es = received ++ e :: rest /\
       extract_file codec doc auto_rotate e dest w1 = (Raise x, w')).
Proof.
  induction es as [|e rest IH]; intros dest w.
  - exists [], Exhausted, w. split; [reflexivity|]. by left.
  - cbn [length]. rewrite pull_cons.
    destruct (extract_file codec doc auto_rotate e dest w) as [[[]|x] w1] eqn:He.
    + destruct (IH dest w1) as (received & ending & w' & Hpull & Hcases).
      rewrite Hpull. exists (e :: received), ending, w'.
      split; [reflexivity|].
      destruct Hcases as [[-> ->]|(x & e' & rest' & w2 & -> & -> & Hx)].
      * by left.
      * right. exists x, e', rest', w2. by repeat split.
    + exists [], (Raised x), w1. split; [reflexivity|].
      right. exists x, e, rest, w. by repeat split.
Qed.

End ExtractionFacts.

(** C10. A filename that neither holds the delimiter nor starts with
    ['page'] is passed over: [extract_file] returns without raising, and
    the world (directories, files, calls to extract or render) is the one
    it started from. *)
Theorem extract_file_foreign_name_is_noop (codec : Codec) (doc : Document)
    (auto_rotate : bool) (filename dest : string) (w : World) :
  Py.contains XREF_DELIMITER filename = false ->
  Py.startswith filename "page" = false ->
  extract_file codec doc auto_rotate filename dest w = (Ok tt, w).
Proof.
  intros Hdelim Hpage. unfold extract_file.
  rewrite Hdelim, Hpage. reflexivity.
Qed.

Lemma extract_file_foreign_name_is_noop_witness :
  extract_file Sample.codec Sample.scenario_a true "cover.jpg" "/tmp/out"
    Sample.empty_world = (Ok tt, Sample.empty_world).
Proof.
  apply (extract_file_foreign_name_is_noop Sample.codec Sample.scenario_a true
           "cover.jpg" "/tmp/out" Sample.empty_world); reflexivity.
Defined.

(** C5. When the filename decodes to an xref for which
    [Document.extract_image] returns the empty dict, [extract_file] returns
    without raising: no directory is made, no file is written or changed;
    only the lookup itself took place. *)
Theorem extraction_miss_is_silent_noop (codec : Codec) (doc : Document)
    (auto_rotate : bool) (filename dest : string) (page xref : Z) (w : World) :
  Py.contains XREF_DELIMITER filename = true ->
  decode_name filename = Ok (page, xref) ->
  extract_image doc xref = Ok None ->
  exists w',
    extract_file codec doc auto_rotate filename dest w = (Ok tt, w') /\
    dirs w' = dirs w /\
    files w' = files w /\
    files w' !! OsPath.join dest filename = files w !! OsPath.join dest filename /\
    calls w' = calls w ++ [CallExtractImage xref].
Proof.
  intros Hin Hdec Hmiss.
  rewrite (extract_file_miss codec doc auto_rotate filename dest page xref w
             Hin Hdec Hmiss).
  eexists. split; [reflexivity|]. cbn. done.
Qed.

Lemma extraction_miss_is_silent_noop_witness :
  exists w',
    extract_file Sample.codec Sample.scenario_a true "page0001_mcmxref0043.jpg"
      "/tmp/out" Sample.empty_world = (Ok tt, w') /\
    dirs w' = ∅ /\ files w' = ∅.
Proof.
  destruct (extraction_miss_is_silent_noop Sample.codec Sample.scenario_a true
              "page0001_mcmxref0043.jpg" "/tmp/out" 0 43 Sample.empty_world
              eq_refl eq_refl eq_refl)
    as (w' & Hrun & Hdirs & Hfiles & _).
  exists w'. split; [exact Hrun|]. split; [exact Hdirs|exact Hfiles].
Defined.

(** After [os.makedirs] on the directory of [path], a file can be
    written there. *)
Lemma write_file_after_makedirs missing path data ds fs cs :
  write_file missing path data
    {| dirs := list_to_set (made_by_makedirs (OsPath.dirname path)) ∪ ds;
       files := fs; calls := cs |} =
  (Ok tt,
   {| dirs := list_to_set (made_by_makedirs (OsPath.dirname path)) ∪ ds;
      files := <[ path := data ]> fs; calls := cs |}).
Proof.
  unfold write_file, dir_exists. cbn [dirs files calls].
  rewrite (bool_decide_eq_true_2 (OsPath.dirname path ∈ _)).
  - by rewrite orb_true_r.
  - unfold made_by_makedirs. set_solver.
Qed.

(** The transpose that undoes a page rotation: 90 by ROTATE_270, 180 by
    ROTATE_180, 270 by ROTATE_90; none for any other rotation. *)
Definition counter_rotation (rotation : Z) : option Transpose :=
  if rotation =? 90 then Some ROTATE_270
  else if rotation =? 180 then Some ROTATE_180
  else if rotation =? 270 then Some ROTATE_90
  else None.

(** C6. An extraction that finds its image writes, for a page rotated by
    90, 180 or 270 with the preference on, the raw bytes decoded,
    transposed by the counter-rotation and encoded again; with the
    preference off, or any other rotation, it writes the raw bytes as they
    are. *)
Theorem rotation_compensation (codec : Codec) (doc : Document)
    (auto_rotate : bool) (page xref : Z) (path : string) (img : ImageDict)
    (pg : Page) (w : World) :
  extract_image doc xref = Ok (Some img) ->
  OsPath.dirname path <> EmptyString ->
  doc_getitem doc page = Ok pg ->
  let raw := default [] (img_image img) in
  (forall t decoded encoded,
     auto_rotate = true ->
     counter_rotation (rotation pg) = Some t ->
     Image_open codec raw = Ok decoded ->
     Image_save codec (Image_transpose codec decoded t) path = Ok encoded ->
     exists w',
       extract_xref codec doc auto_rotate page xref path w = (Ok tt, w') /\
       files w' !! path = Some encoded)
  /\
  (auto_rotate = false \/ counter_rotation (rotation pg) = None ->
   exists w',
     extract_xref codec doc auto_rotate page xref path w = (Ok tt, w') /\
     files w' !! path = Some raw).
Proof.
  intros Himg Hdir Hpage raw.
  assert ((Py.len (OsPath.dirname path) =? 0)%nat = false) as Hlen.
  { apply Nat.eqb_neq. unfold Py.len. by destruct (OsPath.dirname path). }
  unfold extract_xref, bind, note_call, modify, lift, makedirs.
  rewrite Himg, Hlen, Hpage. fold raw.
  split.
  - intros t decoded encoded -> Hrot Hopen Hsave.
    unfold counter_rotation in Hrot.
    destruct (rotation pg =? 90) eqn:E90.
    + injection Hrot as <-. apply Z.eqb_eq in E90. rewrite E90. cbn -[write_file made_by_makedirs].
      rewrite Hopen, Hsave.
      eexists. split; [apply write_file_after_makedirs|]. cbn. apply lookup_insert_eq.
    + destruct (rotation pg =? 180) eqn:E180.
      * injection Hrot as <-. cbn -[write_file made_by_makedirs]. rewrite Hopen, Hsave.
        eexists. split; [apply write_file_after_makedirs|]. cbn. apply lookup_insert_eq.
      * destruct (rotation pg =? 270) eqn:E270; [|discriminate Hrot].
        injection Hrot as <-. cbn -[write_file made_by_makedirs]. rewrite Hopen, Hsave.
        eexists. split; [apply write_file_after_makedirs|]. cbn. apply lookup_insert_eq.
  - intros [->|Hrot].
    + rewrite andb_false_r.
      eexists. split; [apply write_file_after_makedirs|]. cbn. apply lookup_insert_eq.
    + unfold counter_rotation in Hrot.
      destruct (rotation pg =? 90); [discriminate Hrot|].
      destruct (rotation pg =? 180); [discriminate Hrot|].
      destruct (rotation pg =? 270); [discriminate Hrot|].
      cbn -[write_file made_by_makedirs].
      eexists. split; [apply write_file_after_makedirs|]. cbn. apply lookup_insert_eq.
Qed.

Lemma rotation_compensation_witness :
  (exists w',
     extract_xref Sample.codec Sample.rotated true 0 42
       "/tmp/out/page0001_mcmxref0042.jpg" Sample.empty_world = (Ok tt, w') /\
     files w' !! "/tmp/out/page0001_mcmxref0042.jpg"
     = Some [Byte.xff; Byte.xd8; Byte.x03])
  /\
  (exists w',
     extract_xref Sample.codec Sample.rotated false 0 42
       "/tmp/out/page0001_mcmxref0042.jpg" Sample.empty_world = (Ok tt, w') /\
     files w' !! "/tmp/out/page0001_mcmxref0042.jpg"
     = Some [Byte.xff; Byte.xd8]).
Proof.
  split.
  - destruct (rotation_compensation Sample.codec Sample.rotated true 0 42
                "/tmp/out/page0001_mcmxref0042.jpg"
                {| img_image := Some [Byte.xff; Byte.xd8] |}
                (Sample.image_page 42 100 100 90) Sample.empty_world
                eq_refl ltac:(vm_compute; discriminate) eq_refl) as [H _].
    apply (H ROTATE_270 ([Byte.xff; Byte.xd8], [])); reflexivity.
  - destruct (rotation_compensation Sample.codec Sample.rotated false 0 42
                "/tmp/out/page0001_mcmxref0042.jpg"
                {| img_image := Some [Byte.xff; Byte.xd8] |}
                (Sample.image_page 42 100 100 90) Sample.empty_world
                eq_refl ltac:(vm_compute; discriminate) eq_refl) as [_ H].
    apply H. by left.
Defined.

(** ** The extraction stream *)

(** C8, as the code has it. [iter_extract] hands out the generator over
    the entries. A pull that yields [e] has just run the
    extraction of [e], the head of what was left; and the stream consumed
    to its end has yielded the input in input order, all of it when no
    extraction raised, and otherwise the entries before the first one
    whose extraction raised, with which it stops. *)
Theorem extract_pages_echoes_input (codec : Codec) (doc : Document)
    (auto_rotate : bool) (es : list string) (dest : string) (w : World) :
  let g := {| entries := es; save_path := dest |} in
  iter_extract es dest w = (Ok g, (_create_directory dest w).2)
  /\
  (forall e g' w',
     _extract_pages_next codec doc auto_rotate g w = (Ok (Some (e, g')), w') ->
     es = e :: entries g' /\
     extract_file codec doc auto_rotate e dest w = (Ok tt, w'))
  /\
  exists received ending w',
    pull codec doc auto_rotate (S (length es)) g w = (received, ending, w') /\
    ((ending = Exhausted /\ received = es)
     \/
     exists x e rest w1,
       ending = Raised x /\ es = received ++ e :: rest /\
       extract_file codec doc auto_rotate e dest w1 = (Raise x, w')).
Proof.
  intros g. split; [reflexivity|]. split.
  - intros e g' w'. subst g. destruct es as [|e0 rest].
    + cbn. discriminate.
    + rewrite _extract_pages_next_cons.
      destruct (extract_file codec doc auto_rotate e0 dest w) as [[[]|x] w1] eqn:He;
        [|discriminate].
      intros [= <- <- <-]. by split.
  - apply pull_all.
Qed.

Lemma extract_pages_echoes_input_witness :
  exists w',
    pull Sample.codec Sample.scenario_a true 3
      {| entries := ["page0001_mcmxref0042.jpg"; "page0002.png"];
         save_path := "/tmp/out" |} Sample.empty_world
    = (["page0001_mcmxref0042.jpg"; "page0002.png"], Exhausted, w').
Proof.
  destruct (extract_pages_echoes_input Sample.codec Sample.scenario_a true
              ["page0001_mcmxref0042.jpg"; "page0002.png"] "/tmp/out"
              Sample.empty_world)
    as (_ & _ & received & ending & w' & Hpull & Hcases).
  exists w'.
  destruct Hcases as [[-> ->]|(x & e & rest & w1 & Hend & _)]; [exact Hpull|].
  exfalso. rewrite Hend in Hpull. vm_compute in Hpull. discriminate Hpull.
Defined.

(** C8, as stated, fails: the name of a page the document does not have
    makes its extraction raise, and the stream ends without yielding it
    or the names after it. *)
Lemma extract_pages_drops_after_raise :
  ~ (forall (codec : Codec) (doc : Document) (auto_rotate : bool)
            (es : list string) (dest : string) (w : World),
       (pull codec doc auto_rotate (S (length es))
          {| entries := es; save_path := dest |} w).1.1 = es).
Proof.
  intros H.
  specialize (H Sample.codec Sample.scenario_a true
                ["page0009.png"; "page0001.png"] "/tmp/out" Sample.empty_world).
  vm_compute in H. discriminate H.
Qed.

(** ** [FitzArchive.extract] *)

Section ExtractFacts.

Context (codec : Codec) (doc : Document) (auto_rotate : bool).

(** [extract] on a name whose extraction returns. *)
Lemma extract_returns filename dest w w1 :
  extract_file codec doc auto_rotate filename dest
    (_create_directory dest w).2 = (Ok tt, w1) ->
  extract codec doc auto_rotate filename dest w = (Ok true, w1).
Proof.
  intros Hrun. unfold extract, bind, py_list.
  cbn [_create_directory modify snd] in *. cbn [entries length].
  rewrite pull_cons, Hrun. reflexivity.
Qed.

End ExtractFacts.

(** C9. For a filename whose extraction attempt does not raise,
    [extract] returns [True]; so it does on a miss, where no file has
    been written: the files are those from before the call. *)
Theorem extract_true_even_on_miss (codec : Codec) (doc : Document)
    (auto_rotate : bool) (filename dest : string) (w : World) :
  (forall w1,
     extract_file codec doc auto_rotate filename dest
       (_create_directory dest w).2 = (Ok tt, w1) ->
     extract codec doc auto_rotate filename dest w = (Ok true, w1))
  /\
  (forall page xref,
     Py.contains XREF_DELIMITER filename = true ->
     decode_name filename = Ok (page, xref) ->
     extract_image doc xref = Ok None ->
     exists w',
       extract codec doc auto_rotate filename dest w = (Ok true, w') /\
       files w' = files w).
Proof.
  split.
  - intros w1. apply extract_returns.
  - intros page xref Hin Hdec Hmiss. eexists. split.
    + apply extract_returns.
      apply (extract_file_miss codec doc auto_rotate filename dest page xref _
               Hin Hdec Hmiss).
    + reflexivity.
Qed.

Lemma extract_true_even_on_miss_witness :
  exists w',
    extract Sample.codec Sample.scenario_a true "page0001_mcmxref0043.jpg"
      "/tmp/out" Sample.empty_world = (Ok true, w') /\
    files w' = ∅.
Proof.
  destruct (extract_true_even_on_miss Sample.codec Sample.scenario_a true
              "page0001_mcmxref0043.jpg" "/tmp/out" Sample.empty_world)
    as [_ H].
  apply (H 0 43); reflexivity.
Defined.

(** ** Decoding the names the listing emits *)

Module NameFacts.

Import Py PyFacts.

Lemma app_cons c (s t : string) : String c s +:+ t = String c (s +:+ t).
Proof. reflexivity. Qed.

Lemma app_assoc (s t u : string) : (s +:+ t) +:+ u = s +:+ (t +:+ u).
Proof.
  induction s as [|c s IH]; [reflexivity|]. rewrite !app_cons. by f_equal.
Qed.

Lemma app_empty_r (s : string) : s +:+ EmptyString = s.
Proof. induction s as [|c s IH]; [reflexivity|]. rewrite app_cons. by f_equal. Qed.

(** Strings without the character that starts the delimiter. *)
Fixpoint no_underscore (s : string) : bool :=
  match s with
  | EmptyString => true
  | String c s' => negb (Ascii.eqb c "_") && no_underscore s'
  end.

Lemma no_underscore_app s t :
  no_underscore s = true -> no_underscore t = true ->
  no_underscore (s +:+ t) = true.
Proof.
  intros Hs Ht. induction s as [|c s IH]; [exact Ht|].
  rewrite app_cons. cbn [no_underscore] in *.
  apply andb_prop in Hs as [Hc Hs]. rewrite Hc. by apply IH.
Qed.

Lemma no_underscore_digits s : all_digits s = true -> no_underscore s = true.
Proof.
  induction s as [|c s IH]; [reflexivity|].
  intros [[d Hd] Hs]%all_digits_cons. simpl. rewrite (IH Hs), andb_true_r.
  destruct c as [[] [] [] [] [] [] [] []]; first [reflexivity | discriminate Hd].
Qed.

Lemma no_underscore_format_04 n : no_underscore (format_04 n) = true.
Proof.
  unfold format_04. destruct (n <? 0).
  - change (no_underscore (String "-" ?s)) with (no_underscore s).
    apply no_underscore_digits, padded_digits.
  - apply no_underscore_digits, padded_digits.
Qed.

Lemma prefix_delimiter_other c s :
  Ascii.eqb c "_" = false -> String.prefix XREF_DELIMITER (String c s) = false.
Proof.
  intros Hc. unfold XREF_DELIMITER. cbn [String.prefix].
  destruct (ascii_dec "_" c) as [<-|_]; [discriminate Hc|reflexivity].
Qed.

(** A piece without underscore is read through. *)
Lemma split_go_through pre : forall cur rest,
  no_underscore pre = true ->
  split_go XREF_DELIMITER 0 cur (pre +:+ rest) =
  split_go XREF_DELIMITER 0 (cur +:+ pre) rest.
Proof.
  induction pre as [|c pre IH]; intros cur rest Hpre.
  - simpl. by rewrite app_empty_r.
  - simpl in Hpre. apply andb_prop in Hpre as [Hc Hpre].
    apply negb_true_iff in Hc.
    change (String c pre +:+ rest) with (String c (pre +:+ rest)).
    cbn [split_go]. rewrite (prefix_delimiter_other _ _ Hc).
    rewrite (IH _ _ Hpre), app_assoc. reflexivity.
Qed.

Lemma prefix_app (s t : string) : String.prefix s (s +:+ t) = true.
Proof.
  induction s as [|c s IH]; [by destruct t|].
  rewrite app_cons. cbn [String.prefix].
  by destruct (ascii_dec c c).
Qed.

(** At the delimiter the piece ends, and the delimiter is passed over. *)
Lemma split_go_delimiter cur rest :
  split_go XREF_DELIMITER 0 cur (XREF_DELIMITER +:+ rest) =
  cur :: split_go XREF_DELIMITER 0 EmptyString rest.
Proof.
  pose proof (prefix_app XREF_DELIMITER rest) as H.
  change (XREF_DELIMITER +:+ rest) with (String "_" ("mcmxref" +:+ rest)) in *.
  cbn [split_go]. rewrite H. reflexivity.
Qed.

Lemma split_go_no_delimiter s : forall cur,
  contains XREF_DELIMITER s = false ->
  split_go XREF_DELIMITER 0 cur s = [cur +:+ s].
Proof.
  induction s as [|c s IH]; intros cur Hs.
  - simpl. by rewrite app_empty_r.
  - cbn [contains] in Hs. apply orb_false_elim in Hs as [Hp Hs].
    cbn [split_go]. rewrite Hp, (IH _ Hs), app_assoc. reflexivity.
Qed.

Lemma contains_through pre s :
  no_underscore pre = true ->
  contains XREF_DELIMITER (pre +:+ s) = contains XREF_DELIMITER s.
Proof.
  intros Hpre. induction pre as [|c pre IH]; [reflexivity|].
  simpl in Hpre. apply andb_prop in Hpre as [Hc Hpre].
  apply negb_true_iff in Hc.
  change (String c pre +:+ s) with (String c (pre +:+ s)).
  cbn [contains]. rewrite (prefix_delimiter_other _ _ Hc). simpl.
  by apply IH.
Qed.

Lemma contains_delimiter pre rest :
  contains XREF_DELIMITER (pre +:+ XREF_DELIMITER +:+ rest) = true.
Proof.
  induction pre as [|c pre IH].
  - change (EmptyString +:+ ?s) with s.
    pose proof (prefix_app XREF_DELIMITER rest) as H.
    destruct (XREF_DELIMITER +:+ rest); cbn [contains]; by rewrite H.
  - change (String c pre +:+ ?s) with (String c (pre +:+ s)).
    cbn [contains]. rewrite IH. apply orb_true_r.
Qed.

(** The name of an extracted page splits into its page part and the
    rest. *)
Lemma split_extracted_name pg xref ext :
  contains XREF_DELIMITER ext = false ->
  split XREF_DELIMITER (extracted_name pg xref ext) =
  [pagenum pg; format_04 xref +:+ "." +:+ ext].
Proof.
  intros Hext. unfold split, extracted_name.
  assert (no_underscore (pagenum pg) = true) as Hpage.
  { unfold pagenum. apply (no_underscore_app "page"); [reflexivity|].
    apply no_underscore_format_04. }
  rewrite (split_go_through _ _ _ Hpage), split_go_delimiter.
  rewrite split_go_no_delimiter; [reflexivity|].
  rewrite (contains_through _ _ (no_underscore_format_04 xref)).
  by rewrite (contains_through "." ext eq_refl).
Qed.

(** Four characters exactly, for the numbers of at most four. *)
Lemma len_format_04_small n : -999 <= n <= 9999 -> len (format_04 n) = 4%nat.
Proof.
  intros Hn.
  assert (forallb (fun k => (len (format_04 (Z.of_nat k - 999)) =? 4)%nat)
            (seq 0 (Z.to_nat 10999)) = true) as Hall by (vm_compute; reflexivity).
  rewrite forallb_forall in Hall.
  specialize (Hall (Z.to_nat (n + 999))).
  replace (Z.of_nat (Z.to_nat (n + 999)) - 999) with n in Hall by lia.
  apply Nat.eqb_eq, Hall, in_seq. lia.
Qed.

End NameFacts.

(** The names of pages up to 9999 with xrefs up to 9999 decode to the
    page index and xref they were made from. *)
Theorem decode_extracted_name_of_four_digits (pg : nat) (xref : Z) (ext : string) :
  Z.of_nat pg + 1 <= 9999 ->
  -999 <= xref <= 9999 ->
  Py.contains XREF_DELIMITER ext = false ->
  Py.contains XREF_DELIMITER (extracted_name pg xref ext) = true /\
  decode_name (extracted_name pg xref ext) = Ok (Z.of_nat pg, xref).
Proof.
  intros Hpg Hxref Hext. split.
  - unfold extracted_name. apply NameFacts.contains_delimiter.
  - unfold decode_name. rewrite (NameFacts.split_extracted_name _ _ _ Hext).
    unfold pagenum.
    rewrite <- (NameFacts.len_format_04_small (Z.of_nat pg + 1)) at 1 by lia.
    rewrite PyFacts.take_last_app, PyFacts.int_format_04.
    rewrite <- (NameFacts.len_format_04_small xref) at 1 by lia.
    rewrite PyFacts.take_app, PyFacts.int_format_04.
    f_equal. f_equal. lia.
Qed.

Lemma decode_extracted_name_of_four_digits_witness :
  decode_name "page0007_mcmxref0042.jpg" = Ok (6, 42).
Proof.
  apply (decode_extracted_name_of_four_digits 6 42 "jpg");
    [lia | lia | reflexivity].
Defined.

(** C1 at a five-digit xref. Page 1 of the document holds one full-page
    image, xref 12345; the listing names it with all five digits, and
    [extract_file] reads back xref 1234, which it then asks the document
    for. *)
Theorem five_digit_xref_is_truncated :
  (exists w',
     iter_contents Sample.codec Sample.wide_xref FitzWorker_init
     = (Ok ["page0001_mcmxref12345.jpg"], w'))
  /\ decode_name "page0001_mcmxref12345.jpg" = Ok (0, 1234)
  /\ calls (extract_file Sample.codec Sample.wide_xref true
              "page0001_mcmxref12345.jpg" "/tmp/out" Sample.empty_world).2
     = [CallExtractImage 1234]
  /\ decode_name "page10000_mcmxref0042.jpg" = Ok (-1, 42).
Proof.
  split; [eexists; vm_compute; reflexivity|].
  split; [vm_compute; reflexivity|].
  split; vm_compute; reflexivity.
Qed.

(** ** The render path *)

(** A world in which the directory [/tmp/out] is there, and empty. *)
Definition world_with_out : World :=
  {| dirs := {[ "/tmp/out" ]}; files := ∅; calls := [] |}.

Section RenderFacts.

Context (codec : Codec) (doc : Document).

(** [render_page] on a page of the document, by whether the directory of
    [path] is there. *)
Lemma render_page_eq pg page path w :
  doc_getitem doc pg = Ok page ->
  render_page codec doc pg path w =
  if dir_exists w (OsPath.dirname path)
  then (Ok tt,
        {| dirs := dirs w;
           files := <[ path := pixmap_png codec page PDF_RENDER_DPI_DEF ]> (files w);
           calls := calls w ++ [CallGetPixmap pg] |})
  else (Raise RuntimeError,
        {| dirs := dirs w; files := files w;
           calls := calls w ++ [CallGetPixmap pg] |}).
Proof.
  intros Hpage. unfold render_page, bind, lift, note_call, modify, write_file.
  rewrite Hpage. unfold dir_exists. cbn [dirs files calls].
  by destruct (_ || _).
Qed.

Lemma doc_getitem_page pg page :
  pages doc !! pg = Some page -> doc_getitem doc (Z.of_nat pg) = Ok page.
Proof.
  intros Hpage. pose proof (lookup_lt_Some _ _ _ Hpage) as Hlt.
  unfold doc_getitem, page_count, doc_page.
  destruct (Z.leb_spec (Z.of_nat (length (pages doc))) (Z.of_nat pg)); [lia|].
  destruct (Nat.eqb_spec (length (pages doc)) 0); [lia|].
  rewrite Z.mod_small by lia. by rewrite Nat2Z.id, Hpage.
Qed.

End RenderFacts.

(** The name of a rendered page, up to page 9999, makes [extract_file]
    render that page at [PDF_RENDER_DPI_DEF] and save it under the name, in
    the destination directory, when that directory is there; no directory
    is made on the way. *)
Theorem rendered_name_renders_its_page (codec : Codec) (doc : Document)
    (auto_rotate : bool) (pg : nat) (page : Page) (dest : string) (w : World) :
  Z.of_nat pg + 1 <= 9999 ->
  pages doc !! pg = Some page ->
  dir_exists w (OsPath.dirname (OsPath.join dest (rendered_name pg))) = true ->
  exists w',
    extract_file codec doc auto_rotate (rendered_name pg) dest w = (Ok tt, w') /\
    files w' !! OsPath.join dest (rendered_name pg)
    = Some (pixmap_png codec page PDF_RENDER_DPI_DEF) /\
    dirs w' = dirs w /\
    calls w' = calls w ++ [CallGetPixmap (Z.of_nat pg)].
Proof.
  intros Hsmall Hpage Hdir.
  assert (Py.contains XREF_DELIMITER (rendered_name pg) = false) as Hdelim.
  { rewrite <- (NameFacts.app_empty_r (rendered_name pg)).
    rewrite NameFacts.contains_through; [reflexivity|].
    unfold rendered_name, pagenum.
    apply NameFacts.no_underscore_app; [|reflexivity].
    apply (NameFacts.no_underscore_app "page"); [reflexivity|].
    apply NameFacts.no_underscore_format_04. }
  assert (Py.slice 4 8 (rendered_name pg) = Py.format_04 (Z.of_nat pg + 1)) as Hslice.
  { unfold Py.slice, rendered_name, pagenum.
    change (Py.drop 4 (("page" +:+ ?f) +:+ ?t)) with (f +:+ t).
    change (8 - 4)%nat with 4%nat.
    rewrite <- (NameFacts.len_format_04_small (Z.of_nat pg + 1)) at 1 by lia.
    apply PyFacts.take_app. }
  unfold extract_file. rewrite Hdelim.
  assert (Py.startswith (rendered_name pg) "page" = true) as ->.
  { unfold Py.startswith, rendered_name, pagenum.
    rewrite NameFacts.app_assoc. apply NameFacts.prefix_app. }
  unfold bind, lift. rewrite Hslice, PyFacts.int_format_04.
  replace (Z.of_nat pg + 1 - 1) with (Z.of_nat pg) by lia.
  rewrite (render_page_eq codec doc _ page _ w (doc_getitem_page doc pg page Hpage)).
  rewrite Hdir. eexists. split; [reflexivity|]. cbn.
  split; [apply lookup_insert_eq|done].
Qed.

Lemma rendered_name_renders_its_page_witness :
  exists w',
    extract_file Sample.codec Sample.scenario_a true "page0002.png" "/tmp/out"
      world_with_out = (Ok tt, w') /\
    files w' !! "/tmp/out/page0002.png"
    = Some [Byte.x89; Byte.x50; Byte.x4e; Byte.x47].
Proof.
  destruct (rendered_name_renders_its_page Sample.codec Sample.scenario_a true
              1 (Sample.mixed_page 43) "/tmp/out" world_with_out
              ltac:(lia) eq_refl eq_refl) as (w' & Hrun & Hfile & _).
  exists w'. split; [exact Hrun|exact Hfile].
Defined.

(** * Further properties of the worker *)

(** ** The directories [os.makedirs] makes

    Each of them is the path asked for or lies above it: it spells the
    beginning of that path. *)

Module PathFacts.

Import OsPath.

Lemma head_through_slash_begins p :
  exists rest, p = head_through_slash p +:+ rest.
Proof.
  induction p as [|c p [rest IH]]; [by exists EmptyString|].
  cbn [head_through_slash]. destruct (Py.contains "/" (String c p)).
  - exists rest. rewrite NameFacts.app_cons. by f_equal.
  - by exists (String c p).
Qed.

Lemma rstrip_slash_begins s : exists rest, s = rstrip_slash s +:+ rest.
Proof.
  induction s as [|c s [rest IH]]; [by exists EmptyString|].
  cbn [rstrip_slash]. destruct (all_slashes (String c s)).
  - by exists (String c s).
  - exists rest. rewrite NameFacts.app_cons. by f_equal.
Qed.

Lemma dirname_begins p : exists rest, p = dirname p +:+ rest.
Proof.
  unfold dirname. destruct (head_through_slash_begins p) as [rest Hp].
  destruct (negb _ && negb _); [|by exists rest].
  destruct (rstrip_slash_begins (head_through_slash p)) as [rest' Hh].
  exists (rest' +:+ rest). by rewrite <- NameFacts.app_assoc, <- Hh.
Qed.

Lemma ancestors_begin fuel : forall d d',
  d' ∈ ancestors fuel d -> exists rest, d = d' +:+ rest.
Proof.
  induction fuel as [|k IH]; intros d d'; cbn [ancestors].
  { by intros ?%elem_of_nil. }
  destruct (_ || _); [by intros ?%elem_of_nil|].
  destruct (dirname_begins d) as [rest Hd].
  intros [->|Hin]%elem_of_cons; [by exists rest|].
  destruct (IH _ _ Hin) as [rest' Hd'].
  exists (rest' +:+ rest). by rewrite <- NameFacts.app_assoc, <- Hd'.
Qed.

End PathFacts.

Lemma made_by_makedirs_begins (d d' : string) :
  d' ∈ made_by_makedirs d -> exists rest, d = d' +:+ rest.
Proof.
  unfold made_by_makedirs. intros [->|Hin]%elem_of_cons.
  - exists EmptyString. by rewrite NameFacts.app_empty_r.
  - by apply (PathFacts.ancestors_begin _ _ _ Hin).
Qed.

(** ** What one extraction does to the file system

    [extract_file] runs [os.makedirs] at most once, on the directory of
    its output, writes at most one file, its output, and calls the
    document as its filename decides.  The world it starts from matters in
    one place only: whether the directory of the output is there. *)

Record Effect := {
  eff_dir : option string;
  eff_file : option (string * bytes);
  eff_calls : list Call
}.

Definition apply_effect (e : Effect) (w : World) : World :=
  {| dirs := match eff_dir e with
             | Some d => list_to_set (made_by_makedirs d) ∪ dirs w
             | None => dirs w
             end;
     files := match eff_file e with
              | Some (path, data) => <[ path := data ]> (files w)
              | None => files w
              end;
     calls := calls w ++ eff_calls e |}.

Definition no_effect : Effect :=
  {| eff_dir := None; eff_file := None; eff_calls := [] |}.

(** An effect that stays with the output [out]. *)
Definition touches (out : string) (e : Effect) : Prop :=
  (forall d, eff_dir e = Some d -> d = OsPath.dirname out) /\
  (forall p data, eff_file e = Some (p, data) -> p = out).

Section Effects.

Context (codec : Codec) (doc : Document) (auto_rotate : bool).

Lemma apply_no_effect w : apply_effect no_effect w = w.
Proof. destruct w. unfold apply_effect. cbn. by rewrite app_nil_r. Qed.

Lemma dir_exists_apply_effect e w d :
  dir_exists w d = true -> dir_exists (apply_effect e w) d = true.
Proof.
  unfold dir_exists, apply_effect. cbn [dirs].
  destruct (Py.len d =? 0)%nat; [done|]. cbn [orb].
  intros Hd%bool_decide_eq_true_1. apply bool_decide_eq_true_2.
  destruct (eff_dir e); [|exact Hd]. apply elem_of_union. by right.
Qed.

Ltac effect_facts :=
  split;
  [intros w; cbn -[write_file made_by_makedirs];
   try rewrite write_file_after_makedirs; reflexivity|];
  repeat split; intros; simplify_eq/=; done.

(** The effect of [extract_xref] is on [path] and its directory only, and
    the same in every world. *)
Lemma extract_xref_effect page xref path :
  exists r e,
    (forall w, extract_xref codec doc auto_rotate page xref path w
               = (r, apply_effect e w)) /\
    touches path e /\
    eff_calls e = [CallExtractImage xref].
Proof.
  unfold touches, extract_xref, bind, note_call, modify, lift, makedirs.
  destruct (extract_image doc xref) as [[img|]|x].
  - destruct (Py.len (OsPath.dirname path) =? 0)%nat.
    { exists (Raise FileNotFoundError),
        {| eff_dir := None; eff_file := None; eff_calls := [CallExtractImage xref] |}.
      effect_facts. }
    destruct (doc_getitem doc page) as [pg|x].
    2:{ exists (Raise x),
          {| eff_dir := Some (OsPath.dirname path); eff_file := None;
             eff_calls := [CallExtractImage xref] |}.
        effect_facts. }
    destruct (((rotation pg =? 90) || (rotation pg =? 180) || (rotation pg =? 270))
              && auto_rotate).
    + destruct (Image_open codec (default [] (img_image img))) as [pil|x].
      2:{ exists (Raise x),
            {| eff_dir := Some (OsPath.dirname path); eff_file := None;
               eff_calls := [CallExtractImage xref] |}.
          effect_facts. }
      destruct (Image_save codec _ path) as [saved|x].
      * exists (Ok tt),
          {| eff_dir := Some (OsPath.dirname path); eff_file := Some (path, saved);
             eff_calls := [CallExtractImage xref] |}.
        effect_facts.
      * exists (Raise x),
          {| eff_dir := Some (OsPath.dirname path); eff_file := None;
             eff_calls := [CallExtractImage xref] |}.
        effect_facts.
    + exists (Ok tt),
        {| eff_dir := Some (OsPath.dirname path);
           eff_file := Some (path, default [] (img_image img));
           eff_calls := [CallExtractImage xref] |}.
      effect_facts.
  - exists (Ok tt),
      {| eff_dir := None; eff_file := None; eff_calls := [CallExtractImage xref] |}.
    effect_facts.
  - exists (Raise x),
      {| eff_dir := None; eff_file := None; eff_calls := [CallExtractImage xref] |}.
    effect_facts.
Qed.

(** [render_page] makes no directory; it writes [path] when the directory
    of [path] is there and raises otherwise. *)
Lemma render_page_effect pg path :
  exists r e r' e',
    (forall w, render_page codec doc pg path w =
               if dir_exists w (OsPath.dirname path)
               then (r, apply_effect e w) else (r', apply_effect e' w)) /\
    touches path e /\ touches path e' /\
    eff_dir e = None /\ eff_dir e' = None.
Proof.
  unfold touches.
  destruct (doc_getitem doc pg) as [page|x] eqn:Hpage.
  - exists (Ok tt),
      {| eff_dir := None;
         eff_file := Some (path, pixmap_png codec page PDF_RENDER_DPI_DEF);
         eff_calls := [CallGetPixmap pg] |},
      (Raise RuntimeError),
      {| eff_dir := None; eff_file := None; eff_calls := [CallGetPixmap pg] |}.
    split; [intros w; by rewrite (render_page_eq codec doc pg page path w Hpage)|].
    repeat split; intros; simplify_eq/=; done.
  - exists (Raise x), no_effect, (Raise x), no_effect.
    split.
    { intros w. unfold render_page, bind, lift. rewrite Hpage, apply_no_effect.
      by destruct (dir_exists _ _). }
    by repeat split.
Qed.

(** [extract_file]: either the run is the same in every world, or it makes
    no directory and depends on whether the directory of the output is
    there. *)
Lemma extract_file_effect filename dest :
  exists r e r' e',
    (forall w, extract_file codec doc auto_rotate filename dest w =
               if dir_exists w (OsPath.dirname (OsPath.join dest filename))
               then (r, apply_effect e w) else (r', apply_effect e' w)) /\
    touches (OsPath.join dest filename) e /\
    touches (OsPath.join dest filename) e' /\
    (eff_dir e' = None \/ (r' = r /\ e' = e)).
Proof.
  assert (forall (run : M World unit) r e,
            (forall w, run w = (r, apply_effect e w)) ->
            touches (OsPath.join dest filename) e ->
            exists r e r' e',
              (forall w, run w =
                         if dir_exists w (OsPath.dirname (OsPath.join dest filename))
                         then (r, apply_effect e w) else (r', apply_effect e' w)) /\
              touches (OsPath.join dest filename) e /\
              touches (OsPath.join dest filename) e' /\
              (eff_dir e' = None \/ (r' = r /\ e' = e))) as Hsame.
  { intros run r e Hrun Htouch. exists r, e, r, e.
    split; [intros w; rewrite Hrun; by destruct (dir_exists _ _)|].
    split; [exact Htouch|]. split; [exact Htouch|]. by right. }
  assert (forall r : PyResult unit,
            exists r0 e r' e',
              (forall w, (r, w) =
                         if dir_exists w (OsPath.dirname (OsPath.join dest filename))
                         then (r0, apply_effect e w) else (r', apply_effect e' w)) /\
              touches (OsPath.join dest filename) e /\
              touches (OsPath.join dest filename) e' /\
              (eff_dir e' = None \/ (r' = r0 /\ e' = e))) as Hpure.
  { intros r. apply (Hsame (fun w => (r, w)) r no_effect).
    - intros w. by rewrite apply_no_effect.
    - by split. }
  unfold extract_file.
  destruct (Py.contains XREF_DELIMITER filename).
  - destruct (Py.split XREF_DELIMITER filename) as [|pginfo [|ref [|more rest]]];
      try apply Hpure.
    unfold bind, lift.
    destruct (Py.int (Py.take_last 4 pginfo)) as [n|x]; [|apply Hpure].
    destruct (Py.int (Py.take 4 ref)) as [xref|x]; [|apply Hpure].
    destruct (extract_xref_effect (n - 1) xref (OsPath.join dest filename))
      as (r & e & Hrun & Htouch & _).
    by apply (Hsame _ r e).
  - destruct (Py.startswith filename "page").
    + unfold bind, lift.
      destruct (Py.int (Py.slice 4 8 filename)) as [n|x]; [|apply Hpure].
      destruct (render_page_effect (n - 1) (OsPath.join dest filename))
        as (r & e & r' & e' & Hrun & Htouch & Htouch' & _ & Hdir').
      exists r, e, r', e'. repeat split; try apply Htouch; try apply Htouch';
        [exact Hrun|by left].
    + apply Hpure.
Qed.

(** One effect applied twice leaves the directories and files it left
    the first time. *)
Lemma apply_effect_twice e w :
  dirs (apply_effect e (apply_effect e w)) = dirs (apply_effect e w) /\
  files (apply_effect e (apply_effect e w)) = files (apply_effect e w).
Proof.
  unfold apply_effect. cbn [dirs files]. split.
  - destruct (eff_dir e) as [d|]; [|reflexivity].
    by rewrite (assoc_L (∪)), (union_idemp_L (list_to_set _)).
  - destruct (eff_file e) as [[path data]|]; [|reflexivity].
    apply insert_insert_eq.
Qed.

(** What an effect that stays with [out] leaves alone. *)
Lemma apply_effect_touches out e w :
  touches out e ->
  (forall p, p <> out -> files (apply_effect e w) !! p = files w !! p) /\
  (forall d, d ∈ dirs w -> d ∈ dirs (apply_effect e w)) /\
  (forall d, d ∈ dirs (apply_effect e w) ->
             d ∈ dirs w \/ d ∈ made_by_makedirs (OsPath.dirname out)).
Proof.
  intros [Hdir Hfile]. unfold apply_effect. cbn [files dirs].
  split; [|split].
  - intros p Hp. destruct (eff_file e) as [[p0 data]|] eqn:E; [|reflexivity].
    rewrite (Hfile p0 data eq_refl). by apply lookup_insert_ne.
  - intros d Hd. destruct (eff_dir e); [|exact Hd].
    apply elem_of_union. by right.
  - intros d Hd. destruct (eff_dir e) as [d0|] eqn:E; [|by left].
    apply elem_of_union in Hd as [Hd|Hd]; [|by left].
    right. rewrite <- (Hdir d0 eq_refl). by apply elem_of_list_to_set in Hd.
Qed.

End Effects.

(** X3. [extract_file] leaves every file but the one it is asked for as
    it was, removes no directory, and the directories it makes are among
    those [os.makedirs] makes for the directory of its output: that
    directory and the ones above it, each of which spells the beginning
    of its path. *)
Theorem extract_file_touches_only_its_output (codec : Codec) (doc : Document)
    (auto_rotate : bool) (filename dest : string) (w w' : World)
    (r : PyResult unit) :
  extract_file codec doc auto_rotate filename dest w = (r, w') ->
  (forall p, p <> OsPath.join dest filename -> files w' !! p = files w !! p) /\
  (forall d, d ∈ dirs w -> d ∈ dirs w') /\
  (forall d, d ∈ dirs w' ->
             d ∈ dirs w \/
             (d ∈ made_by_makedirs (OsPath.dirname (OsPath.join dest filename)) /\
              exists rest, OsPath.dirname (OsPath.join dest filename) = d +:+ rest)).
Proof.
  destruct (extract_file_effect codec doc auto_rotate filename dest)
    as (r0 & e & r1 & e1 & Hrun & Htouch & Htouch1 & _).
  assert (forall e0, touches (OsPath.join dest filename) e0 ->
            (forall p, p <> OsPath.join dest filename ->
                       files (apply_effect e0 w) !! p = files w !! p) /\
            (forall d, d ∈ dirs w -> d ∈ dirs (apply_effect e0 w)) /\
            (forall d, d ∈ dirs (apply_effect e0 w) ->
               d ∈ dirs w \/
               (d ∈ made_by_makedirs (OsPath.dirname (OsPath.join dest filename)) /\
                exists rest,
                  OsPath.dirname (OsPath.join dest filename) = d +:+ rest)))
    as Hstays.
  { intros e0 Htouch0.
    destruct (apply_effect_touches _ e0 w Htouch0) as (Hfiles & Hkeeps & Hnew).
    split; [exact Hfiles|]. split; [exact Hkeeps|].
    intros d [Hd|Hd]%Hnew; [by left|right].
    split; [exact Hd|by apply made_by_makedirs_begins]. }
  rewrite Hrun.
  destruct (dir_exists _ _); intros [= _ <-]; by apply Hstays.
Qed.

Lemma extract_file_touches_only_its_output_witness :
  files (extract_file Sample.codec Sample.scenario_a true
           "page0001_mcmxref0042.jpg" "/tmp/out" Sample.empty_world).2
    !! "/tmp/out/page0002.png" = None /\
  forall d,
    d ∈ dirs (extract_file Sample.codec Sample.scenario_a true
                "page0001_mcmxref0042.jpg" "/tmp/out" Sample.empty_world).2 ->
    d ∈ ["/tmp/out"; "/tmp"; "/"].
Proof.
  destruct (extract_file_touches_only_its_output Sample.codec Sample.scenario_a
              true "page0001_mcmxref0042.jpg" "/tmp/out" Sample.empty_world
              _ _ (surjective_pairing _)) as (Hfiles & _ & Hdirs).
  split.
  - rewrite Hfiles; [reflexivity|]. vm_compute. discriminate.
  - intros d Hd. destruct (Hdirs d Hd) as [Hin|[Hin _]]; [|exact Hin].
    by apply elem_of_empty in Hin.
Defined.

(** X4. Asked twice for the same filename, [extract_file] ends the second
    time as it ended the first (returning, or raising the same exception)
    and leaves the directories and files the first run left. *)
Theorem extract_file_twice_is_once (codec : Codec) (doc : Document)
    (auto_rotate : bool) (filename dest : string) (w w1 : World)
    (r : PyResult unit) :
  extract_file codec doc auto_rotate filename dest w = (r, w1) ->
  exists w2,
    extract_file codec doc auto_rotate filename dest w1 = (r, w2) /\
    dirs w2 = dirs w1 /\
    files w2 = files w1.
Proof.
  destruct (extract_file_effect codec doc auto_rotate filename dest)
    as (r0 & e & r1 & e1 & Hrun & _ & _ & Hsame).
  rewrite Hrun.
  destruct (dir_exists w _) eqn:Hdir; intros [= <- <-]; rewrite Hrun.
  - rewrite (dir_exists_apply_effect e w _ Hdir).
    eexists. split; [reflexivity|]. apply apply_effect_twice.
  - destruct Hsame as [Hnone|[-> ->]].
    + assert (dir_exists (apply_effect e1 w)
                (OsPath.dirname (OsPath.join dest filename)) = false) as ->.
      { rewrite <- Hdir. unfold dir_exists, apply_effect. cbn [dirs].
        by rewrite Hnone. }
      eexists. split; [reflexivity|]. apply apply_effect_twice.
    + exists (apply_effect e (apply_effect e w)).
      split; [by destruct (dir_exists (apply_effect e w) _)|].
      apply apply_effect_twice.
Qed.

Lemma extract_file_twice_is_once_witness :
  exists w2,
    extract_file Sample.codec Sample.rotated true "page0001_mcmxref0042.jpg"
      "/tmp/out"
      (extract_file Sample.codec Sample.rotated true "page0001_mcmxref0042.jpg"
         "/tmp/out" Sample.empty_world).2
    = (Ok tt, w2) /\
    files w2 !! "/tmp/out/page0001_mcmxref0042.jpg"
    = Some [Byte.xff; Byte.xd8; Byte.x03].
Proof.
  destruct (extract_file_twice_is_once Sample.codec Sample.rotated true
              "page0001_mcmxref0042.jpg" "/tmp/out" Sample.empty_world
              (extract_file Sample.codec Sample.rotated true
                 "page0001_mcmxref0042.jpg" "/tmp/out" Sample.empty_world).2
              (Ok tt) eq_refl) as (w2 & Hrun & _ & Hfiles).
  exists w2. split; [exact Hrun|]. rewrite Hfiles. reflexivity.
Defined.

(** X5. [FitzArchive.extract] returns [True] when the extraction of the
    name returns and raises what the extraction raises; it never returns
    [False]. *)
Theorem extract_is_true_or_raises (codec : Codec) (doc : Document)
    (auto_rotate : bool) (filename dest : string) (w : World) :
  match extract_file codec doc auto_rotate filename dest
          (_create_directory dest w).2 with
  | (Ok _, w1) => extract codec doc auto_rotate filename dest w = (Ok true, w1)
  | (Raise x, w1) => extract codec doc auto_rotate filename dest w = (Raise x, w1)
  end
  /\ forall w', extract codec doc auto_rotate filename dest w <> (Ok false, w').
Proof.
  assert (match extract_file codec doc auto_rotate filename dest
                  (_create_directory dest w).2 with
          | (Ok _, w1) => extract codec doc auto_rotate filename dest w = (Ok true, w1)
          | (Raise x, w1) => extract codec doc auto_rotate filename dest w = (Raise x, w1)
          end) as H.
  { unfold extract, bind, py_list.
    cbn [_create_directory modify snd entries length].
    rewrite pull_cons.
    by destruct (extract_file codec doc auto_rotate filename dest _) as [[[]|x] w1]. }
  split; [exact H|].
  intros w' Hfalse.
  destruct (extract_file codec doc auto_rotate filename dest _) as [[[]|x] w1];
    rewrite H in Hfalse; discriminate Hfalse.
Qed.

(** ** Which pages a listing extracts *)

(** [iter_contents] as the generator it is: [pg] is its loop variable,
    and [None] is StopIteration. *)
Definition iter_contents_next (codec : Codec) (doc : Document) (pg : nat)
  : M FitzWorker (option (string * nat)) :=
  if (pg <? page_count doc)%nat
  then
    let* filename := iter_contents_body codec doc pg in
    ret (Some (filename, S pg))
  else ret None.

(** A consumer that asks the generator for at most [n] names. *)
Fixpoint pull_contents (codec : Codec) (doc : Document) (n pg : nat)
  : M FitzWorker (list string) :=
  match n with
  | O => ret []
  | S k =>
      let* r := iter_contents_next codec doc pg in
      match r with
      | None => ret []
      | Some (filename, pg') =>
          let* others := pull_contents codec doc k pg' in
          ret (filename :: others)
      end
  end.

(** The document cut after its first [k] pages. *)
Definition first_pages (k : nat) (doc : Document) : Document :=
  {| pages := take k (pages doc);
     extract_image := extract_image doc;
     xref_stream_raw := xref_stream_raw doc |}.

Section ListingMore.

Context (codec : Codec) (doc : Document).

Lemma entries_from_app ps1 : forall ps2 a w,
  entries_from codec doc a (ps1 ++ ps2) w =
  ((entries_from codec doc a ps1 w).1 ++
   (entries_from codec doc (a + length ps1) ps2 (entries_from codec doc a ps1 w).2).1,
   (entries_from codec doc (a + length ps1) ps2 (entries_from codec doc a ps1 w).2).2).
Proof.
  induction ps1 as [|p rest IH]; intros ps2 a w.
  - cbn. rewrite Nat.add_0_r. by destruct (entries_from codec doc a ps2 w).
  - change ((p :: rest) ++ ps2) with (p :: (rest ++ ps2)).
    rewrite !entries_from_cons, IH. cbn [fst snd length].
    by replace (S a + length rest)%nat with (a + S (length rest))%nat by lia.
Qed.

Lemma pull_contents_loop n : forall pg w,
  pull_contents codec doc n pg w =
  iter_contents_loop codec doc (seq pg (n `min` (page_count doc - pg))) w.
Proof.
  induction n as [|n IH]; intros pg w; [reflexivity|].
  cbn [pull_contents]. unfold bind at 1. unfold iter_contents_next.
  destruct (Nat.ltb_spec pg (page_count doc)) as [Hlt|Hge].
  - replace (S n `min` (page_count doc - pg))%nat
      with (S (n `min` (page_count doc - S pg))) by lia.
    cbn [seq iter_contents_loop]. unfold bind at 1 3.
    destruct (iter_contents_body codec doc pg w) as [[filename|x] w1];
      [|reflexivity].
    cbn [ret]. unfold bind. by rewrite IH.
  - replace (S n `min` (page_count doc - pg))%nat with 0%nat by lia.
    reflexivity.
Qed.

End ListingMore.

Lemma probed_extension_first_pages codec doc k pg :
  (pg < k)%nat ->
  probed_extension codec (first_pages k doc) pg = probed_extension codec doc pg.
Proof.
  intros Hpg. unfold probed_extension, probe, _get_image_xref, first_pages.
  cbn [pages xref_stream_raw]. by rewrite lookup_take_lt.
Qed.

Lemma entries_from_first_pages codec doc k ps : forall a w,
  (a + length ps <= k)%nat ->
  entries_from codec (first_pages k doc) a ps w = entries_from codec doc a ps w.
Proof.
  induction ps as [|p rest IH]; intros a w Hk; [reflexivity|].
  cbn [length] in Hk. rewrite !entries_from_cons.
  assert (page_entry codec (first_pages k doc) a p w = page_entry codec doc a p w)
    as ->.
  { unfold page_entry. by rewrite probed_extension_first_pages by lia. }
  by rewrite IH by lia.
Qed.

(** X6. The listing of a new worker names page [i] in the extracted form,
    under the xref of its one embedded image, when no page up to [i]
    fails the must-render test and the one image placed on page [i]
    covers it; it names it in the rendered form in every other case. *)
Theorem listing_extracts_full_page_images (codec : Codec) (doc : Document)
    (i : nat) (page : Page) :
  pages doc !! i = Some page ->
  exists names w',
    iter_contents codec doc FitzWorker_init = (Ok names, w') /\
    (existsb forced_render (take (S i) (pages doc)) = false ->
     single_full_page_image page = true ->
     get_images page = [first_xref page] /\
     exists ext, names !! i = Some (extracted_name i (first_xref page) ext)) /\
    (existsb forced_render (take (S i) (pages doc)) = true \/
     single_full_page_image page = false ->
     names !! i = Some (rendered_name i)).
Proof.
  intros Hpage. rewrite iter_contents_eq.
  set (r := entries_from codec doc 0 (pages doc) FitzWorker_init).
  exists (map filename_of r.1), r.2. split; [reflexivity|].
  assert (is_Some (r.1 !! i)) as [e He].
  { apply lookup_lt_is_Some. subst r. rewrite entries_from_length.
    by apply lookup_lt_Some in Hpage. }
  destruct (entries_from_state_before codec doc _ _ _ _ _ He)
    as (page' & w0 & Hpage' & Hentry & Hflag).
  rewrite Hpage in Hpage'. injection Hpage' as <-.
  cbn [Nat.add _complex_doc FitzWorker_init orb] in Hentry, Hflag.
  rewrite (take_S_r _ _ _ Hpage), existsb_app. cbn [existsb].
  rewrite orb_false_r, <- Hflag.
  rewrite list_lookup_fmap, He. cbn [fmap option_fmap option_map].
  rewrite Hentry. unfold page_entry.
  split.
  - intros [Hw0 Hforced]%orb_false_elim Hfull.
    rewrite Hw0, Hforced, Hfull. split.
    + unfold forced_render in Hforced.
      apply orb_false_elim in Hforced as [Hone _].
      apply negb_false_iff, Nat.eqb_eq in Hone. unfold first_xref.
      by destruct (get_images page) as [|x [|y rest]].
    + destruct (_extension w0) as [ext|]; eexists; reflexivity.
  - intros [Hany|Hfull].
    + destruct (_complex_doc w0); [reflexivity|]. cbn [orb] in Hany.
      by rewrite Hany.
    + rewrite Hfull. by destruct (_complex_doc w0), (forced_render page).
Qed.

Lemma listing_extracts_full_page_images_witness :
  exists names w',
    iter_contents Sample.codec Sample.scenario_b_then_full FitzWorker_init
    = (Ok names, w') /\
    names !! 0%nat = Some "page0001.png" /\
    exists ext, names !! 1%nat = Some (extracted_name 1 43 ext).
Proof.
  destruct (listing_extracts_full_page_images Sample.codec
              Sample.scenario_b_then_full 0 (Sample.image_page 42 40 100 0) eq_refl)
    as (names & w' & Hrun & _ & Hrendered).
  destruct (listing_extracts_full_page_images Sample.codec
              Sample.scenario_b_then_full 1 (Sample.image_page 43 100 100 0) eq_refl)
    as (names' & w'' & Hrun' & Hextracted & _).
  rewrite Hrun in Hrun'. injection Hrun' as <- <-.
  exists names, w'. split; [exact Hrun|]. split.
  - apply Hrendered. right. reflexivity.
  - apply Hextracted; reflexivity.
Defined.

(** X7. A consumer that stops after [k] names has received the first [k]
    names of the full listing, and has left the worker as the listing of
    the document cut after page [k] would: the pages it did not ask for
    were not examined. Asking for names past the last page gives the full
    listing. *)
Theorem listing_is_lazy (codec : Codec) (doc : Document) (k : nat) :
  (k <= page_count doc)%nat ->
  exists names w' wk,
    iter_contents codec doc FitzWorker_init = (Ok names, w') /\
    pull_contents codec doc k 0 FitzWorker_init = (Ok (take k names), wk) /\
    iter_contents codec (first_pages k doc) FitzWorker_init
    = (Ok (take k names), wk) /\
    forall n, (page_count doc <= n)%nat ->
      pull_contents codec doc n 0 FitzWorker_init = (Ok names, w').
Proof.
  intros Hk. unfold page_count in Hk.
  rewrite iter_contents_eq.
  set (w := FitzWorker_init).
  set (r := entries_from codec doc 0 (pages doc) w).
  set (rk := entries_from codec doc 0 (take k (pages doc)) w).
  exists (map filename_of r.1), r.2, rk.2.
  assert (take k (map filename_of r.1) = map filename_of rk.1) as Htake.
  { subst r rk. rewrite <- (take_drop k (pages doc)) at 1.
    rewrite entries_from_app. cbn [fst]. rewrite map_app, take_app_length'.
    - reflexivity.
    - by rewrite length_map, entries_from_length, length_take_le. }
  split; [reflexivity|]. split; [|split].
  - rewrite pull_contents_loop, Htake.
    replace (k `min` (page_count doc - 0))%nat with (length (take k (pages doc))).
    2:{ unfold page_count. rewrite length_take_le by exact Hk. lia. }
    apply iter_contents_loop_eq.
    intros i page Hi. cbn [Nat.add]. by apply lookup_take_Some in Hi as [Hi _].
  - rewrite iter_contents_eq, Htake. cbn [pages first_pages].
    subst rk. rewrite entries_from_first_pages; [reflexivity|].
    rewrite length_take_le by exact Hk. lia.
  - intros n Hn. rewrite pull_contents_loop.
    replace (n `min` (page_count doc - 0))%nat with (page_count doc) by lia.
    apply (iter_contents_eq codec doc w).
Qed.

Lemma listing_is_lazy_witness :
  pull_contents Sample.codec Sample.scenario_a 2 0 FitzWorker_init
  = (Ok ["page0001_mcmxref0042.jpg"; "page0002.png"],
     {| _extension := Some "jpg"; _complex_doc := true;
        probes := [CallCheckImageType 0] |}).
Proof.
  destruct (listing_is_lazy Sample.codec Sample.scenario_a 2 ltac:(vm_compute; lia))
    as (names & w' & wk & Hrun & Hpull & Hcut & _).
  rewrite Hpull, <- Hcut. vm_compute. reflexivity.
Defined.

(** X8. The complex flag outlives a listing: when a page fails the
    must-render test, a second [iter_contents] of the same worker names
    every page in the rendered form, the pages the first one extracted
    too. *)
Theorem second_listing_renders_every_page (codec : Codec) (doc : Document)
    (i : nat) (page : Page) :
  pages doc !! i = Some page ->
  (length (get_images page) <> 1%nat \/ get_text page <> EmptyString) ->
  exists names w',
    iter_contents codec doc FitzWorker_init = (Ok names, w') /\
    iter_contents codec doc w'
    = (Ok (map rendered_name (seq 0 (page_count doc))), w').
Proof.
  intros Hpage Hforced.
  assert (forced_render page = true) as Hf.
  { unfold forced_render. destruct Hforced as [Himg|Htxt].
    - apply Nat.eqb_neq in Himg. by rewrite Himg.
    - destruct (get_text page); [done|]. by rewrite orb_true_r. }
  rewrite iter_contents_eq.
  set (r := entries_from codec doc 0 (pages doc) FitzWorker_init).
  exists (map filename_of r.1), r.2. split; [reflexivity|].
  rewrite iter_contents_eq, entries_from_complex.
  - cbn [fst snd]. by rewrite <- list_fmap_compose.
  - subst r. by apply (entries_from_forced_flag codec doc _ 0 _ i page).
Qed.

Lemma second_listing_renders_every_page_witness :
  exists names w',
    iter_contents Sample.codec Sample.scenario_a FitzWorker_init = (Ok names, w') /\
    names !! 0%nat = Some "page0001_mcmxref0042.jpg" /\
    iter_contents Sample.codec Sample.scenario_a w'
    = (Ok ["page0001.png"; "page0002.png"; "page0003.png"], w').
Proof.
  destruct (second_listing_renders_every_page Sample.codec Sample.scenario_a 1
              (Sample.mixed_page 43) eq_refl ltac:(right; discriminate))
    as (names & w' & Hrun & Hagain).
  exists names, w'. split; [exact Hrun|]. split; [|exact Hagain].
  assert (names = ["page0001_mcmxref0042.jpg"; "page0002.png"; "page0003.png"])
    as ->; [|reflexivity].
  vm_compute in Hrun. by injection Hrun as <- _.
Defined.

(** ** A stream of extractions left unfinished *)

(** X9. A consumer that stops after as many pulls as there are entries
    in [es1] has received what the stream over [es1] alone yields, in a
    world that is the same; the entries [es2] that follow were not
    attempted, and wait in the suspended generator. *)
Theorem extract_pages_attempts_only_what_is_pulled (codec : Codec)
    (doc : Document) (auto_rotate : bool) (es1 es2 : list string)
    (dest : string) (w w1 : World) (received : list string) (ending : Ending) :
  pull codec doc auto_rotate (S (length es1))
    {| entries := es1; save_path := dest |} w = (received, ending, w1) ->
  pull codec doc auto_rotate (length es1)
    {| entries := es1 ++ es2; save_path := dest |} w
  = (received,
     match ending with
     | Exhausted => Suspended {| entries := es2; save_path := dest |}
     | _ => ending
     end,
     w1).
Proof.
  revert w w1 received ending.
  induction es1 as [|e rest IH]; intros w w1 received ending.
  - cbn. by intros [= <- <- <-].
  - cbn [length]. change ((e :: rest) ++ es2) with (e :: (rest ++ es2)).
    rewrite !pull_cons.
    destruct (extract_file codec doc auto_rotate e dest w) as [[[]|x] w0].
    + destruct (pull codec doc auto_rotate (S (length rest))
                  {| entries := rest; save_path := dest |} w0)
        as [[received0 ending0] w2] eqn:Hrest.
      intros [= <- <- <-]. by rewrite (IH _ _ _ _ Hrest).
    + by intros [= <- <- <-].
Qed.

Lemma extract_pages_attempts_only_what_is_pulled_witness :
  exists w1,
    pull Sample.codec Sample.scenario_a true 1
      {| entries := ["page0001_mcmxref0042.jpg"; "page0002.png"];
         save_path := "/tmp/out" |} Sample.empty_world
    = (["page0001_mcmxref0042.jpg"],
       Suspended {| entries := ["page0002.png"]; save_path := "/tmp/out" |}, w1)
    /\ files w1 !! "/tmp/out/page0002.png" = None.
Proof.
  eexists. split.
  - apply (extract_pages_attempts_only_what_is_pulled Sample.codec
             Sample.scenario_a true ["page0001_mcmxref0042.jpg"] ["page0002.png"]
             "/tmp/out" Sample.empty_world _ _ Exhausted).
    vm_compute. reflexivity.
  - vm_compute. reflexivity.
Defined.

(** ** From the listing to the extraction *)

Section Dispatch.

Context (codec : Codec) (doc : Document) (auto_rotate : bool).

Lemma decode_name_extracted pg xref ext :
  Z.of_nat pg + 1 <= 9999 ->
  -999 <= xref <= 9999 ->
  Py.contains XREF_DELIMITER ext = false ->
  decode_name (extracted_name pg xref ext) = Ok (Z.of_nat pg, xref).
Proof.
  intros Hpg Hxref Hext.
  unfold decode_name. rewrite (NameFacts.split_extracted_name _ _ _ Hext).
  unfold pagenum.
  rewrite <- (NameFacts.len_format_04_small (Z.of_nat pg + 1)) at 1 by lia.
  rewrite PyFacts.take_last_app, PyFacts.int_format_04.
  rewrite <- (NameFacts.len_format_04_small xref) at 1 by lia.
  rewrite PyFacts.take_app, PyFacts.int_format_04.
  f_equal. f_equal. lia.
Qed.

Lemma extract_file_extracted_name pg xref ext dest w :
  Z.of_nat pg + 1 <= 9999 ->
  -999 <= xref <= 9999 ->
  Py.contains XREF_DELIMITER ext = false ->
  extract_file codec doc auto_rotate (extracted_name pg xref ext) dest w =
  extract_xref codec doc auto_rotate (Z.of_nat pg) xref
    (OsPath.join dest (extracted_name pg xref ext)) w.
Proof.
  intros Hpg Hxref Hext. rewrite extract_file_xref.
  - by rewrite (decode_name_extracted _ _ _ Hpg Hxref Hext).
  - unfold extracted_name. apply NameFacts.contains_delimiter.
Qed.

Lemma extract_file_rendered_name pg dest w :
  Z.of_nat pg + 1 <= 9999 ->
  extract_file codec doc auto_rotate (rendered_name pg) dest w =
  render_page codec doc (Z.of_nat pg) (OsPath.join dest (rendered_name pg)) w.
Proof.
  intros Hsmall.
  assert (Py.contains XREF_DELIMITER (rendered_name pg) = false) as Hdelim.
  { rewrite <- (NameFacts.app_empty_r (rendered_name pg)).
    rewrite NameFacts.contains_through; [reflexivity|].
    unfold rendered_name, pagenum.
    apply NameFacts.no_underscore_app; [|reflexivity].
    apply (NameFacts.no_underscore_app "page"); [reflexivity|].
    apply NameFacts.no_underscore_format_04. }
  assert (Py.slice 4 8 (rendered_name pg) = Py.format_04 (Z.of_nat pg + 1)) as Hslice.
  { unfold Py.slice, rendered_name, pagenum.
    change (Py.drop 4 (("page" +:+ ?f) +:+ ?t)) with (f +:+ t).
    change (8 - 4)%nat with 4%nat.
    rewrite <- (NameFacts.len_format_04_small (Z.of_nat pg + 1)) at 1 by lia.
    apply PyFacts.take_app. }
  unfold extract_file. rewrite Hdelim.
  assert (Py.startswith (rendered_name pg) "page" = true) as ->.
  { unfold Py.startswith, rendered_name, pagenum.
    rewrite NameFacts.app_assoc. apply NameFacts.prefix_app. }
  unfold bind, lift. rewrite Hslice, PyFacts.int_format_04.
  by replace (Z.of_nat pg + 1 - 1) with (Z.of_nat pg) by lia.
Qed.

End Dispatch.

(** X10. In a document of at most 9999 pages whose probed extensions do
    not hold the delimiter, the name listed for page [i] brings
    [extract_file] back to page [i]: a rendered name renders page [i],
    whatever the page holds, and an extracted name, when the xref of the
    page's image has at most four digits, extracts that xref with the
    rotation of page [i]. *)
Theorem listed_name_leads_back_to_its_page (codec : Codec) (doc : Document)
    (auto_rotate : bool) (dest : string) (i : nat) (page : Page) :
  Z.of_nat (page_count doc) <= 9999 ->
  (forall pg, Py.contains XREF_DELIMITER (probed_extension codec doc pg) = false) ->
  pages doc !! i = Some page ->
  exists names w' name,
    iter_contents codec doc FitzWorker_init = (Ok names, w') /\
    names !! i = Some name /\
    ((name = rendered_name i /\
      forall w, extract_file codec doc auto_rotate name dest w =
                render_page codec doc (Z.of_nat i) (OsPath.join dest name) w)
     \/
     (exists ext,
        name = extracted_name i (first_xref page) ext /\
        (-999 <= first_xref page <= 9999 ->
         forall w, extract_file codec doc auto_rotate name dest w =
                   extract_xref codec doc auto_rotate (Z.of_nat i) (first_xref page)
                     (OsPath.join dest name) w))).
Proof.
  intros Hcount Hexts Hpage.
  pose proof (lookup_lt_Some _ _ _ Hpage) as Hlt. unfold page_count in Hcount.
  rewrite iter_contents_eq.
  set (r := entries_from codec doc 0 (pages doc) FitzWorker_init).
  assert (is_Some (r.1 !! i)) as [e He].
  { apply lookup_lt_is_Some. subst r. by rewrite entries_from_length. }
  exists (map filename_of r.1), r.2, (filename_of e).
  split; [reflexivity|]. split.
  { by rewrite list_lookup_fmap, He. }
  destruct (entries_from_state_before codec doc _ _ _ _ _ He)
    as (page' & w0 & Hpage' & Hentry & _).
  rewrite Hpage in Hpage'. injection Hpage' as <-. cbn [Nat.add] in Hentry.
  destruct e as [pg|pg xref ext].
  - left.
    assert (pg = i) as ->.
    { apply (f_equal entry_page) in Hentry. by rewrite page_entry_page in Hentry. }
    split; [reflexivity|]. intros w. cbn [filename_of].
    apply extract_file_rendered_name. lia.
  - right.
    assert (pg = i /\ xref = first_xref page) as [-> ->].
    { revert Hentry. unfold page_entry.
      destruct (_complex_doc w0), (forced_render page),
        (single_full_page_image page), (_extension w0); cbn; intros [=]; done. }
    assert (Py.contains XREF_DELIMITER ext = false) as Hext.
    { destruct (entries_from_first_probe codec doc (pages doc) 0 FitzWorker_init
                  eq_refl) as [(Hnone & _)|(j & p & x & _ & _ & _ & _ & Hsame)].
      - apply list_elem_of_lookup_2 in He. apply Hnone in He. discriminate He.
      - apply list_elem_of_lookup_2 in He. rewrite (Hsame _ _ _ He). apply Hexts. }
    exists ext. split; [reflexivity|]. intros Hxref w. cbn [filename_of].
    apply extract_file_extracted_name; [lia|exact Hxref|exact Hext].
Qed.

Lemma listed_name_leads_back_to_its_page_witness :
  exists names w' name,
    iter_contents Sample.codec Sample.rotated FitzWorker_init = (Ok names, w') /\
    names !! 0%nat = Some name /\
    extract_file Sample.codec Sample.rotated true name "/tmp/out" Sample.empty_world
    = extract_xref Sample.codec Sample.rotated true 0 42
        (OsPath.join "/tmp/out" name) Sample.empty_world /\
    files (extract_file Sample.codec Sample.rotated true name "/tmp/out"
             Sample.empty_world).2 !! OsPath.join "/tmp/out" name
    = Some [Byte.xff; Byte.xd8; Byte.x03].
Proof.
  destruct (listed_name_leads_back_to_its_page Sample.codec Sample.rotated true
              "/tmp/out" 0 (Sample.image_page 42 100 100 90))
    as (names & w' & name & Hrun & Hname & Hcases).
  - vm_compute. discriminate.
  - intros pg. unfold probed_extension, probe.
    destruct (_get_image_xref Sample.rotated pg); reflexivity.
  - reflexivity.
  - exists names, w', name. split; [exact Hrun|]. split; [exact Hname|].
    assert (name = "page0001_mcmxref0042.jpg") as Hn.
    { vm_compute in Hrun. injection Hrun as <- _. by injection Hname as <-. }
    split.
    + destruct Hcases as [[Hr _]|(ext & _ & Hx)].
      * rewrite Hn in Hr. vm_compute in Hr. discriminate Hr.
      * apply Hx. cbn. lia.
    + rewrite Hn. vm_compute. reflexivity.
Defined.

(** * The managers: [FitzProcessWrangler] and [FitzArchive]

    A [FitzManager] runs one child process, and [WorkerProxy.filename] is
    a class attribute of that process. [FitzProcessWrangler] is a
    [threading.local]: each thread that touches it gets attributes of its
    own, set by [__init__] run in that thread with the arguments of the
    constructor. The calls below are made one after another, each by the
    thread it names. *)

Module Facade.

Definition Thread := nat.

(** The child process of a manager: [WorkerProxy.filename] there. *)
Record ChildProcess := { proxy_filename : option string }.

(** [FitzManager(); start()]: one more process; the manager is known by
    the position of its process among those started. *)
Definition FitzManager_start (children : list ChildProcess)
  : nat * list ChildProcess :=
  (length children, children ++ [ {| proxy_filename := None |} ]).

(** [mgr.open(filename)]: [WorkerProxy._open] in the child. *)
Definition _open (m : nat) (filename : string) (children : list ChildProcess)
  : list ChildProcess :=
  alter (fun _ => {| proxy_filename := Some filename |}) m children.

Record FitzProcessWrangler := {
  (** the arguments [threading.local] keeps for [__init__] *)
  wr_filename : string;
  (** [self.mgr], thread by thread *)
  wr_mgr : gmap Thread nat
}.

(** [FitzProcessWrangler.__init__], run in thread [t]. *)
Definition wrangler_init (t : Thread) (wr : FitzProcessWrangler)
    (children : list ChildProcess) : FitzProcessWrangler * list ChildProcess :=
  let '(m, children) := FitzManager_start children in
  let children := _open m (wr_filename wr) children in
  ({| wr_filename := wr_filename wr; wr_mgr := <[ t := m ]> (wr_mgr wr) |},
   children).

(** [self.mgr] read in thread [t], inside a method of the wrangler: the
    first touch by a thread runs [__init__] there. *)
Definition wrangler_self_mgr (t : Thread) (wr : FitzProcessWrangler)
    (children : list ChildProcess)
  : nat * FitzProcessWrangler * list ChildProcess :=
  match wr_mgr wr !! t with
  | Some m => (m, wr, children)
  | None =>
      let '(wr', children') := wrangler_init t wr children in
      (length children, wr', children')
  end.

Record FitzArchive := {
  archive : string;
  (** [None] when the object has no attribute [_mgr] *)
  _mgr : option FitzProcessWrangler
}.

(** The archive object and the processes started so far, oldest first. *)
Record Runtime := {
  self : FitzArchive;
  children : list ChildProcess
}.

(** [FitzArchive.close] *)
Definition close (r : Runtime) : Runtime :=
  {| self := {| archive := archive (self r); _mgr := None |};
     children := children r |}.

(** [FitzArchive._open_doc], called in thread [t]. *)
Definition _open_doc (t : Thread) (r : Runtime) : FitzProcessWrangler * Runtime :=
  let r := close r in
  let '(wr, children) :=
    wrangler_init t {| wr_filename := archive (self r); wr_mgr := ∅ |}
      (children r) in
  (wr, {| self := {| archive := archive (self r); _mgr := Some wr |};
          children := children |}).

(** The property [FitzArchive.mgr], read in thread [t]. *)
Definition mgr (t : Thread) (r : Runtime) : FitzProcessWrangler * Runtime :=
  match _mgr (self r) with
  | None => _open_doc t r
  | Some wr => (wr, r)
  end.

(** [self.mgr.page_count()], [self.mgr.iter_contents()] and
    [self.mgr.extract_pages(...)] in thread [t], up to the manager they
    reach; the wrangler is one object, so what the thread's first touch
    adds to it is seen through [_mgr]. *)
Definition manager_of (t : Thread) (r : Runtime) : nat * Runtime :=
  let '(wr, r) := mgr t r in
  let '(m, wr, children) := wrangler_self_mgr t wr (children r) in
  (m, {| self := {| archive := archive (self r); _mgr := Some wr |};
         children := children |}).

(** What is done with an archive: closing it, or using it from a thread. *)
Inductive Op :=
| OpClose
| OpUse (t : Thread).

Definition step (r : Runtime) (op : Op) : Runtime :=
  match op with
  | OpClose => close r
  | OpUse t => (manager_of t r).2
  end.

Definition run (ops : list Op) (r : Runtime) : Runtime := foldl step r ops.

(** Every thread's manager is a process opened on the archive's file,
    and no two threads have the same. *)
Definition well_formed (r : Runtime) : Prop :=
  forall wr, _mgr (self r) = Some wr ->
    wr_filename wr = archive (self r) /\
    (forall t m, wr_mgr wr !! t = Some m ->
       children r !! m = Some {| proxy_filename := Some (archive (self r)) |}) /\
    (forall t1 t2 m, wr_mgr wr !! t1 = Some m -> wr_mgr wr !! t2 = Some m -> t1 = t2).

Lemma wrangler_init_eq t wr cs :
  wrangler_init t wr cs =
  ({| wr_filename := wr_filename wr; wr_mgr := <[ t := length cs ]> (wr_mgr wr) |},
   cs ++ [ {| proxy_filename := Some (wr_filename wr) |} ]).
Proof.
  unfold wrangler_init, FitzManager_start, _open. f_equal.
  rewrite <- (Nat.add_0_r (length cs)) at 1. by rewrite alter_app_r.
Qed.

Lemma well_formed_close r : well_formed (close r).
Proof. intros wr. cbn. discriminate. Qed.

Lemma well_formed_init t name cs :
  well_formed
    {| self := {| archive := name;
                  _mgr := Some (wrangler_init t {| wr_filename := name; wr_mgr := ∅ |} cs).1 |};
       children := (wrangler_init t {| wr_filename := name; wr_mgr := ∅ |} cs).2 |}.
Proof.
  rewrite wrangler_init_eq. intros wr [= <-]. cbn.
  split; [reflexivity|]. split.
  - intros t' m [[<- <-]|[_ Hm]]%lookup_insert_Some.
    + by rewrite lookup_app_r, Nat.sub_diag.
    + by rewrite lookup_empty in Hm.
  - intros t1 t2 m [[<- _]|[_ H1]]%lookup_insert_Some [[<- _]|[_ H2]]%lookup_insert_Some;
      rewrite ?lookup_empty in *; done.
Qed.

Lemma well_formed_manager_of t r :
  well_formed r -> well_formed (manager_of t r).2.
Proof.
  intros Hwf. unfold manager_of, mgr, _open_doc.
  destruct (_mgr (self r)) as [wr|] eqn:Hmgr.
  - destruct (Hwf wr Hmgr) as (Hname & Hproc & Hinj).
    unfold wrangler_self_mgr. destruct (wr_mgr wr !! t) as [m|] eqn:Ht.
    + cbn. intros wr' [= <-]. by repeat split.
    + rewrite wrangler_init_eq. cbn. intros wr' [= <-]. cbn.
      split; [exact Hname|]. split.
      * intros t' m [[<- <-]|[_ Hm]]%lookup_insert_Some.
        -- by rewrite lookup_app_r, Nat.sub_diag, Hname.
        -- rewrite lookup_app_l; [by apply (Hproc t')|].
           eapply lookup_lt_Some. by apply (Hproc t').
      * intros t1 t2 m [[<- <-]|[_ H1]]%lookup_insert_Some
                       [[<- Hm]|[_ H2]]%lookup_insert_Some.
        -- reflexivity.
        -- apply Hproc, lookup_lt_Some in H2. lia.
        -- apply Hproc, lookup_lt_Some in H1. lia.
        -- by apply (Hinj t1 t2 m).
  - cbn [close self children archive].
    rewrite wrangler_init_eq. cbn [fst snd wr_filename wr_mgr].
    unfold wrangler_self_mgr. cbn [wr_mgr]. rewrite lookup_insert_eq.
    cbn [snd self children archive].
    pose proof (well_formed_init t (archive (self r)) (children r)) as H.
    by rewrite wrangler_init_eq in H.
Qed.

Lemma well_formed_run ops : forall r, well_formed r -> well_formed (run ops r).
Proof.
  induction ops as [|op ops IH]; intros r Hwf; [exact Hwf|].
  apply IH. destruct op; [apply well_formed_close|by apply well_formed_manager_of].
Qed.

End Facade.

(** An archive object that has no manager yet, beside the processes
    [cs] that others started. *)
Definition unopened (name : string) (cs : list Facade.ChildProcess)
  : Facade.Runtime :=
  {| Facade.self := {| Facade.archive := name; Facade._mgr := None |};
     Facade.children := cs |}.

Lemma archive_run ops : forall r,
  Facade.archive (Facade.self (Facade.run ops r)) = Facade.archive (Facade.self r).
Proof.
  induction ops as [|op ops IH]; intros r; [reflexivity|].
  cbn [Facade.run foldl]. fold (Facade.run ops (Facade.step r op)). rewrite IH.
  destruct op as [|t]; [reflexivity|].
  unfold Facade.step, Facade.manager_of, Facade.mgr, Facade._open_doc.
  destruct (Facade._mgr (Facade.self r)) as [wr|].
  - by destruct (Facade.wrangler_self_mgr t wr (Facade.children r)) as [[m wr'] cs].
  - rewrite Facade.wrangler_init_eq. cbn.
    by destruct (Facade.wrangler_self_mgr t _ _) as [[m wr'] cs].
Qed.

(** X11. Whatever uses and closes an archive has seen, from whatever
    threads, the managers it holds are one per thread, no two threads
    sharing one, and each is a process opened on the archive's file. *)
Theorem managers_are_one_per_thread (name : string)
    (cs : list Facade.ChildProcess) (ops : list Facade.Op)
    (wr : Facade.FitzProcessWrangler) :
  let r := Facade.run ops (unopened name cs) in
  Facade._mgr (Facade.self r) = Some wr ->
  (forall t m, Facade.wr_mgr wr !! t = Some m ->
     Facade.children r !! m = Some {| Facade.proxy_filename := Some name |}) /\
  (forall t1 t2 m,
     Facade.wr_mgr wr !! t1 = Some m -> Facade.wr_mgr wr !! t2 = Some m -> t1 = t2).
Proof.
  intros r Hmgr.
  assert (Facade.well_formed r) as Hwf.
  { apply Facade.well_formed_run. intros wr0. cbn. discriminate. }
  destruct (Hwf wr Hmgr) as (_ & Hproc & Hinj).
  subst r. rewrite archive_run in Hproc. split; [exact Hproc|exact Hinj].
Qed.

Lemma managers_are_one_per_thread_witness :
  exists wr,
    Facade._mgr (Facade.self
      (Facade.run [Facade.OpUse 1%nat; Facade.OpUse 2%nat; Facade.OpUse 1%nat]
         (unopened "book.pdf" []))) = Some wr /\
    Facade.wr_mgr wr !! 1%nat = Some 0%nat /\
    Facade.wr_mgr wr !! 2%nat = Some 1%nat /\
    forall t, Facade.wr_mgr wr !! t = Some 0%nat -> t = 1%nat.
Proof.
  eexists. split; [reflexivity|]. split; [reflexivity|]. split; [reflexivity|].
  intros t Ht.
  destruct (managers_are_one_per_thread "book.pdf" []
              [Facade.OpUse 1%nat; Facade.OpUse 2%nat; Facade.OpUse 1%nat] _ eq_refl)
    as [_ Hinj].
  apply (Hinj t 1%nat 0%nat Ht). reflexivity.
Defined.

(** X12. A thread that uses the archive again, with no close in between,
    reaches the manager it reached before, and no process is started for
    it. *)
Theorem second_use_reaches_the_same_manager (t : Facade.Thread)
    (r : Facade.Runtime) :
  Facade.manager_of t (Facade.manager_of t r).2 = Facade.manager_of t r
  /\ exists wr,
       Facade._mgr (Facade.self (Facade.manager_of t r).2) = Some wr /\
       Facade.wr_mgr wr !! t = Some (Facade.manager_of t r).1.
Proof.
  assert (exists m wr a cs,
            Facade.manager_of t r =
            (m, {| Facade.self := {| Facade.archive := a; Facade._mgr := Some wr |};
                   Facade.children := cs |}) /\
            Facade.wr_mgr wr !! t = Some m) as (m & wr & a & cs & Hrun & Hm).
  { unfold Facade.manager_of, Facade.mgr, Facade._open_doc.
    destruct (Facade._mgr (Facade.self r)) as [wr|].
    - unfold Facade.wrangler_self_mgr.
      destruct (Facade.wr_mgr wr !! t) as [m|] eqn:Ht.
      + by eexists _, _, _, _.
      + rewrite Facade.wrangler_init_eq. eexists _, _, _, _.
        split; [reflexivity|]. cbn. apply lookup_insert_eq.
    - rewrite Facade.wrangler_init_eq. cbn [fst snd].
      unfold Facade.wrangler_self_mgr. cbn [Facade.wr_mgr].
      rewrite lookup_insert_eq. eexists _, _, _, _.
      split; [reflexivity|]. cbn. apply lookup_insert_eq. }
  rewrite Hrun. cbn [fst snd]. split.
  - unfold Facade.manager_of, Facade.mgr, Facade.wrangler_self_mgr.
    cbn [Facade.self Facade._mgr Facade.children]. by rewrite Hm.
  - by exists wr.
Qed.

(** X13. Closing twice is closing once, and closing an archive that has
    no manager changes nothing. After a close the next use starts a new
    process, opened on the archive's file, whatever processes ran
    before: nothing of the closed wrangler is reached again. *)
Theorem use_after_close_starts_a_new_process (t : Facade.Thread)
    (r : Facade.Runtime) :
  Facade.close (Facade.close r) = Facade.close r /\
  (Facade._mgr (Facade.self r) = None -> Facade.close r = r) /\
  (Facade.manager_of t (Facade.close r)).1 = length (Facade.children r) /\
  Facade.children (Facade.manager_of t (Facade.close r)).2 =
  Facade.children r ++
  [ {| Facade.proxy_filename := Some (Facade.archive (Facade.self r)) |} ].
Proof.
  split; [reflexivity|]. split.
  { destruct r as [[a m] cs]. cbn. by intros ->. }
  unfold Facade.manager_of, Facade.mgr, Facade._open_doc.
  cbn [Facade.close Facade.self Facade._mgr Facade.children Facade.archive].
  rewrite Facade.wrangler_init_eq. cbn [fst snd].
  unfold Facade.wrangler_self_mgr. cbn [Facade.wr_mgr].
  rewrite lookup_insert_eq. cbn. done.
Qed.

(** ** From the archive to the worker *)

(** What the caller gets from a method registered without a proxy type,
    as [page_count] is: not the value the child computed but an
    [AutoProxy] of it. The value, its referent, stays in the child; the
    proxy is no [int], so it neither compares equal to a number nor
    formats with [%d]. *)
Inductive AutoProxy (A : Type) : Type :=
| auto_proxy (referent : A).

Arguments auto_proxy {A} referent.

Section ThroughTheManager.

Context (codec : Codec).
(** [fitz.open(filename)] in a child process *)
Context (fitz_open : option string -> PyResult Document).

(** [WorkerProxy._count_pages] in the child [c] *)
Definition _count_pages (c : Facade.ChildProcess) : PyResult nat :=
  match fitz_open (Facade.proxy_filename c) with
  | Ok doc => Ok (page_count doc)
  | Raise e => Raise e
  end.

(** [WorkerProxy._list_pages] in the child [c], its generator consumed
    to the end. *)
Definition _list_pages (c : Facade.ChildProcess) : PyResult (list string) :=
  match fitz_open (Facade.proxy_filename c) with
  | Ok doc => (iter_contents codec doc FitzWorker_init).1
  | Raise e => Raise e
  end.

(** A call through [self.mgr] in thread [t]; a manager is the position
    of a process that was started. *)
Definition through_manager {A} (call : Facade.ChildProcess -> PyResult A)
    (t : Facade.Thread) (r : Facade.Runtime) : PyResult A * Facade.Runtime :=
  let '(m, r') := Facade.manager_of t r in
  match Facade.children r' !! m with
  | Some c => (call c, r')
  | None => (Raise RuntimeError, r')
  end.

(** [self.mgr.page_count()], as [FitzArchive.__init__] calls it *)
Definition archive_page_count :=
  through_manager (fun c =>
    match _count_pages c with
    | Ok n => Ok (auto_proxy n)
    | Raise e => Raise e
    end).

(** [FitzArchive.iter_contents], consumed to the end *)
Definition archive_iter_contents := through_manager _list_pages.

Lemma manager_of_child t r :
  Facade.well_formed r ->
  Facade.children (Facade.manager_of t r).2 !! (Facade.manager_of t r).1 =
  Some {| Facade.proxy_filename := Some (Facade.archive (Facade.self r)) |}.
Proof.
  intros Hwf. unfold Facade.manager_of, Facade.mgr, Facade._open_doc.
  destruct (Facade._mgr (Facade.self r)) as [wr|] eqn:Hmgr.
  - destruct (Hwf wr Hmgr) as (Hname & Hproc & _).
    unfold Facade.wrangler_self_mgr.
    destruct (Facade.wr_mgr wr !! t) as [m|] eqn:Ht.
    + cbn. by apply (Hproc t).
    + rewrite Facade.wrangler_init_eq. cbn.
      by rewrite lookup_app_r, Nat.sub_diag, Hname.
  - rewrite Facade.wrangler_init_eq. cbn [fst snd].
    unfold Facade.wrangler_self_mgr. cbn [Facade.wr_mgr].
    rewrite lookup_insert_eq. cbn.
    (* the thread's manager is the process that was just started *)
    by rewrite lookup_app_r, Nat.sub_diag.
Qed.

End ThroughTheManager.

(** X14. From any thread, after any uses and closes, the archive lists
    the pages of the document at its own path with a worker that is new.
    [page_count] through the manager returns a proxy, and the number the
    proxy stands for, held in the child, is the number of names listed. *)
Theorem archive_lists_its_document (codec : Codec)
    (fitz_open : option string -> PyResult Document) (name : string)
    (cs : list Facade.ChildProcess) (ops : list Facade.Op) (t : Facade.Thread)
    (doc : Document) :
  fitz_open (Some name) = Ok doc ->
  let r := Facade.run ops (unopened name cs) in
  exists names,
    (archive_iter_contents codec fitz_open t r).1 = Ok names /\
    (iter_contents codec doc FitzWorker_init).1 = Ok names /\
    (archive_page_count fitz_open t r).1 = Ok (auto_proxy (length names)).
Proof.
  intros Hopen r.
  assert (Facade.well_formed r) as Hwf.
  { apply Facade.well_formed_run. intros wr0. cbn. discriminate. }
  pose proof (manager_of_child t r Hwf) as Hchild.
  assert (Facade.archive (Facade.self r) = name) as Hname
    by (subst r; apply archive_run).
  rewrite Hname in Hchild.
  rewrite iter_contents_eq. cbn [fst].
  eexists. split; [|split; [reflexivity|]].
  - unfold archive_iter_contents, through_manager.
    destruct (Facade.manager_of t r) as [m r'] eqn:Hm. cbn [fst snd] in Hchild.
    rewrite Hchild. cbn [fst]. unfold _list_pages. cbn [Facade.proxy_filename].
    rewrite Hopen, iter_contents_eq. reflexivity.
  - unfold archive_page_count, through_manager.
    destruct (Facade.manager_of t r) as [m r'] eqn:Hm. cbn [fst snd] in Hchild.
    rewrite Hchild. cbn [fst]. unfold _count_pages. cbn [Facade.proxy_filename].
    rewrite Hopen. cbn. f_equal. f_equal.
    by rewrite length_map, entries_from_length.
Qed.

Lemma archive_lists_its_document_witness :
  (archive_iter_contents Sample.codec (fun _ => Ok Sample.scenario_a) 2%nat
     (Facade.run [Facade.OpUse 1%nat; Facade.OpClose] (unopened "book.pdf" []))).1
  = Ok ["page0001_mcmxref0042.jpg"; "page0002.png"; "page0003.png"] /\
  (archive_page_count (fun _ => Ok Sample.scenario_a) 2%nat
     (Facade.run [Facade.OpUse 1%nat; Facade.OpClose] (unopened "book.pdf" []))).1
  = Ok (auto_proxy 3%nat).
Proof.
  destruct (archive_lists_its_document Sample.codec (fun _ => Ok Sample.scenario_a)
              "book.pdf" [] [Facade.OpUse 1%nat; Facade.OpClose] 2%nat
              Sample.scenario_a eq_refl) as (names & Hlist & Hworker & Hcount).
  assert (names = ["page0001_mcmxref0042.jpg"; "page0002.png"; "page0003.png"])
    as Hnames.
  { vm_compute in Hworker. by injection Hworker as <-. }
  split.
  - rewrite Hlist. by f_equal.
  - rewrite Hcount, Hnames. reflexivity.
Defined.

(** ** The empty destination *)

Lemma dirname_without_slash (s : string) :
  Py.contains "/" s = false ->
  OsPath.join EmptyString s = s /\ OsPath.dirname s = EmptyString.
Proof.
  intros Hs. split.
  - unfold OsPath.join, Py.startswith.
    destruct s as [|c s]; [reflexivity|].
    cbn [Py.contains] in Hs. apply orb_false_elim in Hs as [-> _]. reflexivity.
  - unfold OsPath.dirname.
    assert (OsPath.head_through_slash s = EmptyString) as ->; [|reflexivity].
    destruct s as [|c s]; [reflexivity|]. cbn [OsPath.head_through_slash].
    by rewrite Hs.
Qed.

(** X15. With the empty string as destination, the name of an embedded
    image that the document does hold cannot be extracted: the output has
    no directory part, [os.makedirs] refuses the empty path, and
    [extract_file] raises FileNotFoundError with no directory made and no
    file written. *)
Theorem extraction_needs_a_destination (codec : Codec) (doc : Document)
    (auto_rotate : bool) (filename : string) (page xref : Z) (img : ImageDict)
    (w : World) :
  Py.contains XREF_DELIMITER filename = true ->
  Py.contains "/" filename = false ->
  decode_name filename = Ok (page, xref) ->
  extract_image doc xref = Ok (Some img) ->
  exists w',
    extract_file codec doc auto_rotate filename EmptyString w
    = (Raise FileNotFoundError, w') /\
    dirs w' = dirs w /\ files w' = files w.
Proof.
  intros Hdelim Hslash Hdec Hfound.
  destruct (dirname_without_slash filename Hslash) as [Hjoin Hdir].
  rewrite (extract_file_xref codec doc auto_rotate filename _ w Hdelim), Hdec, Hjoin.
  unfold extract_xref, bind, note_call, modify, lift, makedirs.
  rewrite Hfound, Hdir. cbn. eexists. split; [reflexivity|]. by split.
Qed.

Lemma extraction_needs_a_destination_witness :
  exists w',
    extract_file Sample.codec Sample.scenario_a true "page0001_mcmxref0042.jpg"
      EmptyString Sample.empty_world = (Raise FileNotFoundError, w') /\
    files w' = ∅.
Proof.
  destruct (extraction_needs_a_destination Sample.codec Sample.scenario_a true
              "page0001_mcmxref0042.jpg" 0 42
              {| img_image := Some [Byte.xff; Byte.xd8] |} Sample.empty_world
              eq_refl eq_refl eq_refl eq_refl) as (w' & Hrun & _ & Hfiles).
  exists w'. split; [exact Hrun|exact Hfiles].
Defined.

(** ** The names of a listing are all different *)

Module DistinctNames.

Import Py PyFacts.

(** The digits a string starts with. *)
Fixpoint leading_digits (s : string) : string :=
  match s with
  | EmptyString => EmptyString
  | String c s' =>
      match digit_val c with
      | Some _ => String c (leading_digits s')
      | None => EmptyString
      end
  end.

(** The page number a listed name starts with, after ['page']. *)
Definition page_of_name (name : string) : PyResult Z :=
  int (leading_digits (drop 4 name)).

Lemma leading_digits_app f c rest :
  all_digits f = true -> digit_val c = None ->
  leading_digits (f +:+ String c rest) = f.
Proof.
  intros Hf Hc. induction f as [|d f IH].
  - change (EmptyString +:+ ?s) with s. cbn [leading_digits]. by rewrite Hc.
  - apply all_digits_cons in Hf as [[v Hv] Hf].
    rewrite NameFacts.app_cons. cbn [leading_digits]. rewrite Hv.
    by rewrite (IH Hf).
Qed.

Lemma all_digits_format_04 n : 0 <= n -> all_digits (format_04 n) = true.
Proof.
  intros Hn. unfold format_04.
  destruct (Z.ltb_spec n 0); [lia|]. apply padded_digits.
Qed.

Lemma page_of_filename e :
  page_of_name (filename_of e) = Ok (Z.of_nat (entry_page e) + 1).
Proof.
  unfold page_of_name.
  destruct e as [pg|pg xref ext]; cbn [filename_of entry_page];
    unfold rendered_name, extracted_name, pagenum;
    change (drop 4 (("page" +:+ ?f) +:+ ?t)) with (f +:+ t).
  - change ".png" with (String "." "png").
    rewrite leading_digits_app;
      [apply int_format_04|apply all_digits_format_04; lia|reflexivity].
  - change (XREF_DELIMITER +:+ ?t) with (String "_" ("mcmxref" +:+ t)).
    rewrite leading_digits_app;
      [apply int_format_04|apply all_digits_format_04; lia|reflexivity].
Qed.

Lemma entries_from_pages codec doc ps : forall a w,
  map entry_page (entries_from codec doc a ps w).1 = seq a (length ps).
Proof.
  induction ps as [|p rest IH]; intros a w; [reflexivity|].
  rewrite entries_from_cons. cbn [fst map length seq].
  by rewrite page_entry_page, IH.
Qed.

End DistinctNames.

(** X16. No two pages of a listing are given the same filename, however
    many pages the document has. *)
Theorem listing_names_are_distinct (codec : Codec) (doc : Document) :
  exists names w',
    iter_contents codec doc FitzWorker_init = (Ok names, w') /\
    NoDup names /\
    forall i j name,
      names !! i = Some name -> names !! j = Some name -> i = j.
Proof.
  rewrite iter_contents_eq.
  set (r := entries_from codec doc 0 (pages doc) FitzWorker_init).
  exists (map filename_of r.1), r.2. split; [reflexivity|].
  assert (NoDup (map filename_of r.1)) as Hnodup.
  { apply (NoDup_fmap_1 DistinctNames.page_of_name).
    assert (DistinctNames.page_of_name <$> map filename_of r.1
            = (fun n : nat => Ok (Z.of_nat n + 1)) <$> map entry_page r.1) as ->.
    { rewrite <- !list_fmap_compose. apply list_fmap_ext.
      intros k e _. apply DistinctNames.page_of_filename. }
    subst r. rewrite DistinctNames.entries_from_pages.
    apply NoDup_fmap_2; [|apply NoDup_seq].
    intros a b [= Hab]. lia. }
  split; [exact Hnodup|].
  intros i j name Hi Hj. by apply (NoDup_lookup _ i j name Hnodup).
Qed.
